(** * EveRes: events, resources and allocations (src/app.py)

    A shallow embedding of the Flask view functions of [src/app.py] that
    schedule events, register resources, allocate a resource to an event
    after the conflict check, and report the utilisation of the resources.

    The three MongoDB collections are lists of documents in insertion
    order; a view function maps the store to the store it leaves and the
    response it returns.  An exception that no view function catches ends
    the request and leaves the store as it was.  The account pages and
    the dashboard write to none of the three collections and are left
    out. *)

From Stdlib Require Import ZArith List String Bool Lia Permutation Sorted.
From Stdlib Require Import Floats Uint63.
Import ListNotations.

Local Open Scope string_scope.
Local Open Scope list_scope.
Local Open Scope Z_scope.

(** ** Python values *)

(** [bson.objectid.ObjectId]: an opaque identifier compared by equality. *)
Definition ObjectId := N.

(** A naive [datetime]: microseconds on the proleptic time line; the order
    of two naive [datetime]s is the order of these numbers.  Such are the
    values the store returns and [datetime.now()] reads. *)
Definition datetime := Z.

(** [end - start]: a [timedelta], the number of microseconds between. *)
Definition timedelta := Z.

(** [timedelta.seconds]: a [timedelta] is kept as days, seconds (0..86399)
    and microseconds (0..999999); the attribute is the middle component. *)
Definition seconds (d : timedelta) : Z := (d / 1000000) mod 86400.

(** [timedelta.total_seconds()], without the fraction of a second. *)
Definition total_whole_seconds (d : timedelta) : Z := d / 1000000.

(** The exceptions the view functions can raise and do not catch. *)
Inductive exn :=
| TypeError    (* subscripting None *)
| ValueError   (* datetime.fromisoformat on a malformed string *)
| InvalidId.   (* ObjectId on a malformed string *)

Inductive result (A : Type) :=
| Ok (a : A)
| Raise (e : exn).
Arguments Ok {A} a.
Arguments Raise {A} e.

Definition bind {A B : Type} (m : result A) (k : A -> result B) : result B :=
  match m with
  | Ok a => k a
  | Raise e => Raise e
  end.

Notation "x <- m ;; k" := (bind m (fun x => k))
  (at level 61, m at next level, right associativity).

(** What [datetime.fromisoformat] makes of a well-formed text: a naive
    [datetime], or an aware one, its fields with its offset from UTC. *)
Inductive iso_datetime :=
| naive (t : datetime)
| aware (t : datetime) (utcoffset : timedelta).

(** The instant in UTC; a naive [datetime] is taken as it is. *)
Definition utc_instant (d : iso_datetime) : datetime :=
  match d with
  | naive t => t
  | aware t utcoffset => t - utcoffset
  end.

(** The order comparisons of two [datetime]s: two naive ones by their
    fields, two aware ones by their instants; a naive one with an aware
    one raises TypeError. *)
Definition compare_datetime (a b : iso_datetime) : result comparison :=
  match a, b with
  | naive x, naive y => Ok (x ?= y)
  | aware _ _, aware _ _ => Ok (utc_instant a ?= utc_instant b)
  | _, _ => Raise TypeError
  end.

(** Both naive or both aware: the two can be compared. *)
Definition comparable (a b : iso_datetime) : bool :=
  match a, b with
  | naive _, naive _ => true
  | aware _ _, aware _ _ => true
  | _, _ => false
  end.

(** [a >= b] *)
Definition datetime_ge (a b : iso_datetime) : result bool :=
  c <- compare_datetime a b ;;
  Ok match c with Lt => false | _ => true end.

(** [a > b] *)
Definition datetime_gt (a b : iso_datetime) : result bool :=
  c <- compare_datetime a b ;;
  Ok match c with Gt => true | _ => false end.

(** [a < b] *)
Definition datetime_lt (a b : iso_datetime) : result bool :=
  c <- compare_datetime a b ;;
  Ok match c with Lt => true | _ => false end.

(** A [datetime] as the store keeps it and returns it: the driver
    subtracts the offset of an aware one, and BSON holds whole
    milliseconds. *)
Definition bson_datetime (d : iso_datetime) : datetime :=
  utc_instant d / 1000 * 1000.

(** A Python number as [report] builds it: [hours] starts as the int [0]
    and becomes a float with the first [+=] of a quotient. *)
Inductive pynum :=
| PyInt (n : Z)
| PyFloat (f : float).

(** The float of an int [0 <= n < 2^53], exactly; [report] converts [0],
    [3600] and a [seconds] component. *)
Definition float_of_int (n : Z) : float := PrimFloat.of_uint63 (Uint63.of_Z n).

(** [a / b] on two such ints: both convert exactly and the quotient is
    rounded once, as Python's true division does. *)
Definition truediv (a b : Z) : float :=
  PrimFloat.div (float_of_int a) (float_of_int b).

(** [h += f] with a float on the right. *)
Definition iadd (h : pynum) (f : float) : pynum :=
  match h with
  | PyInt n => PyFloat (PrimFloat.add (float_of_int n) f)
  | PyFloat g => PyFloat (PrimFloat.add g f)
  end.

(** ** Documents and collections *)

Record Event := mkEvent {
  ev_id : ObjectId;          (* "_id" *)
  ev_title : string;         (* "title" *)
  ev_start : datetime;       (* "start" *)
  ev_end : datetime;         (* "end" *)
  ev_description : string    (* "description" *)
}.

Record Resource := mkResource {
  res_id : ObjectId;         (* "_id" *)
  res_name : string;         (* "name" *)
  res_type : string          (* "type" *)
}.

Record Allocation := mkAllocation {
  al_id : ObjectId;          (* "_id" *)
  al_event_id : ObjectId;    (* "event_id" *)
  al_resource_id : ObjectId  (* "resource_id" *)
}.

(** The database [db]: the collections, and the next identifier
    [insert_one] gives to a document that comes without "_id". *)
Record Store := mkStore {
  events_col : list Event;
  resources_col : list Resource;
  allocations_col : list Allocation;
  next_oid : ObjectId
}.

Definition empty_store : Store := mkStore [] [] [] 0%N.

(** [events_col.find_one({"_id": oid})] *)
Definition find_one_event (db : Store) (oid : ObjectId) : option Event :=
  find (fun e => N.eqb (ev_id e) oid) (events_col db).


(** [allocations_col.find({"resource_id": rid})] *)
Definition find_allocations (db : Store) (rid : ObjectId) : list Allocation :=
  filter (fun a => N.eqb (al_resource_id a) rid) (allocations_col db).

(** [events_col.insert_one({"title":.., "start":.., "end":.., "description":..})] *)
Definition insert_event (db : Store) (title : string) (start end_ : iso_datetime)
    (description : string) : Store :=
  {| events_col :=
       events_col db ++
       [mkEvent (next_oid db) title (bson_datetime start) (bson_datetime end_)
          description];
     resources_col := resources_col db;
     allocations_col := allocations_col db;
     next_oid := N.succ (next_oid db) |}.

(** [resources_col.insert_one({"name":.., "type":..})] *)
Definition insert_resource (db : Store) (name type_ : string) : Store :=
  {| events_col := events_col db;
     resources_col := resources_col db ++ [mkResource (next_oid db) name type_];
     allocations_col := allocations_col db;
     next_oid := N.succ (next_oid db) |}.

(** [allocations_col.insert_one({"event_id":.., "resource_id":..})] *)
Definition insert_allocation (db : Store) (event_id resource_id : ObjectId) : Store :=
  {| events_col := events_col db;
     resources_col := resources_col db;
     allocations_col := allocations_col db ++ [mkAllocation (next_oid db) event_id resource_id];
     next_oid := N.succ (next_oid db) |}.

(** ** Requests and responses *)

Inductive Method := GET | POST.

(** A request: the session's "user" entry, the method and the form, which
    holds every field the view function reads with [request.form[key]].
    A field that the view function parses holds what the parser makes of
    its text: [None] when the text is malformed and the parser raises. *)
Record Request (F : Type) := mkRequest {
  session_user : option string;
  method : Method;
  form : F
}.
Arguments mkRequest {F}.
Arguments session_user {F}.
Arguments method {F}.
Arguments form {F}.

Record EventForm := mkEventForm {
  form_title : string;            (* request.form["title"] *)
  form_start : option iso_datetime;   (* request.form["start"] *)
  form_end : option iso_datetime;     (* request.form["end"] *)
  form_desc : string              (* request.form["desc"] *)
}.

Record ResourceForm := mkResourceForm {
  form_name : string;             (* request.form["name"] *)
  form_type : string              (* request.form["type"] *)
}.

Record AllocateForm := mkAllocateForm {
  form_event : option ObjectId;     (* request.form["event"] *)
  form_resource : option ObjectId   (* request.form["resource"] *)
}.

Record ReportForm := mkReportForm {
  form_window_start : option iso_datetime;   (* request.form["start"] *)
  form_window_end : option iso_datetime      (* request.form["end"] *)
}.

(** [datetime.fromisoformat(field)] *)
Definition fromisoformat (field : option iso_datetime) : result iso_datetime :=
  match field with
  | Some t => Ok t
  | None => Raise ValueError
  end.

(** [ObjectId(field)] *)
Definition ObjectId_of (field : option ObjectId) : result ObjectId :=
  match field with
  | Some oid => Ok oid
  | None => Raise InvalidId
  end.

(** A row of the report: [(r["name"], hours, upcoming)]. *)
Definition ReportRow : Type := string * pynum * Z.

Inductive Response :=
| redirect (location : string)
| body (text : string)
| render_events (events : list Event)
| render_resources (resources : list Resource)
| render_allocate (events : list Event) (resources : list Resource)
| render_report (report : list ReportRow)
| server_error (e : exn).

(** A view function's body runs in [result]; an exception it lets through
    becomes the server's error response and nothing has been inserted. *)
Definition respond (db : Store) (r : result (Store * Response)) : Store * Response :=
  match r with
  | Ok out => out
  | Raise e => (db, server_error e)
  end.

(** [login_required]: without "user" in the session the view function is
    not called. *)
Definition login_required {F : Type}
    (f : Request F -> Store -> Store * Response)
    (req : Request F) (db : Store) : Store * Response :=
  match session_user req with
  | None => (db, redirect "/login")
  | Some _ => f req db
  end.

(** ** Events *)

Definition events (req : Request EventForm) (db : Store) : Store * Response :=
  respond db
    match method req with
    | POST =>
        start <- fromisoformat (form_start (form req)) ;;
        end_ <- fromisoformat (form_end (form req)) ;;
        invalid <- datetime_ge start end_ ;;
        if invalid then Ok (db, body "Invalid time range")
        else
          let db' := insert_event db (form_title (form req)) start end_
                       (form_desc (form req)) in
          Ok (db', render_events (events_col db'))
    | GET => Ok (db, render_events (events_col db))
    end.

(** ** Resources *)

Definition resources (req : Request ResourceForm) (db : Store) : Store * Response :=
  respond db
    match method req with
    | POST =>
        let db' := insert_resource db (form_name (form req)) (form_type (form req)) in
        Ok (db', render_resources (resources_col db'))
    | GET => Ok (db, render_resources (resources_col db))
    end.

(** ** Conflict detection *)

(** The loop of [has_conflict] over the cursor. *)
Fixpoint has_conflict_scan (db : Store) (cursor : list Allocation)
    (start end_ : datetime) : result bool :=
  match cursor with
  | [] => Ok false
  | a :: rest =>
      match find_one_event db (al_event_id a) with
      | None => Raise TypeError
      | Some event =>
          if negb ((end_ <=? ev_start event) || (start >=? ev_end event))
          then Ok true
          else has_conflict_scan db rest start end_
      end
  end.

Definition has_conflict (db : Store) (resource_id : ObjectId)
    (start end_ : datetime) : result bool :=
  has_conflict_scan db (find_allocations db resource_id) start end_.

(** ** Allocate *)

Definition allocate (req : Request AllocateForm) (db : Store) : Store * Response :=
  let events := events_col db in
  let resources := resources_col db in
  respond db
    match method req with
    | POST =>
        oid <- ObjectId_of (form_event (form req)) ;;
        let event := find_one_event db oid in
        resource_id <- ObjectId_of (form_resource (form req)) ;;
        match event with
        | None => Raise TypeError
        | Some event =>
            conflict <- has_conflict db resource_id (ev_start event) (ev_end event) ;;
            if conflict then Ok (db, body "Conflict: Resource already booked")
            else
              Ok (insert_allocation db (ev_id event) resource_id,
                  render_allocate events resources)
        end
    | GET => Ok (db, render_allocate events resources)
    end.

(** ** Report *)

(** The clock of one request: [now k] is what the call number [k] of
    [datetime.now()] returns while the request is served. *)
Definition Clock := nat -> datetime.

(** The inner loop of [report] over one resource's allocations; [tick]
    counts the calls of [datetime.now()] made so far. *)
(** [event["end"] > start and event["start"] < end]: the second
    comparison is made only when the first is true. *)
Definition meets_window (event : Event) (start end_ : iso_datetime) : result bool :=
  ends_after <- datetime_gt (naive (ev_end event)) start ;;
  if ends_after then datetime_lt (naive (ev_start event)) end_ else Ok false.

Fixpoint report_scan (db : Store) (now : Clock) (start end_ : iso_datetime)
    (cursor : list Allocation) (hours : pynum) (upcoming : Z) (tick : nat)
    : result (pynum * Z * nat) :=
  match cursor with
  | [] => Ok (hours, upcoming, tick)
  | a :: rest =>
      match find_one_event db (al_event_id a) with
      | None => Raise TypeError
      | Some event =>
          meets <- meets_window event start end_ ;;
          let hours :=
            if meets
            then iadd hours (truediv (seconds (ev_end event - ev_start event)) 3600)
            else hours in
          let upcoming :=
            if ev_start event >? now tick then upcoming + 1 else upcoming in
          report_scan db now start end_ rest hours upcoming (S tick)
      end
  end.

(** The outer loop of [report] over the resources. *)
Fixpoint report_rows (db : Store) (now : Clock) (start end_ : iso_datetime)
    (cursor : list Resource) (report_data : list ReportRow) (tick : nat)
    : result (list ReportRow * nat) :=
  match cursor with
  | [] => Ok (report_data, tick)
  | r :: rest =>
      row <- report_scan db now start end_ (find_allocations db (res_id r))
               (PyInt 0) 0 tick ;;
      let '(hours, upcoming, tick') := row in
      report_rows db now start end_ rest
        (report_data ++ [(res_name r, hours, upcoming)]) tick'
  end.

Definition report (now : Clock) (req : Request ReportForm) (db : Store)
    : Store * Response :=
  respond db
    match method req with
    | POST =>
        start <- fromisoformat (form_window_start (form req)) ;;
        end_ <- fromisoformat (form_window_end (form req)) ;;
        out <- report_rows db now start end_ (resources_col db) [] 0%nat ;;
        Ok (db, render_report (fst out))
    | GET => Ok (db, render_report [])
    end.

(** ** The routes *)

Definition events_route := login_required events.
Definition resources_route := login_required resources.
Definition allocate_route := login_required allocate.
Definition report_route (now : Clock) := login_required (report now).

(** The stores the application can build from the empty database. *)
Inductive reachable : Store -> Prop :=
| reach_empty : reachable empty_store
| reach_events req db :
    reachable db -> reachable (fst (events_route req db))
| reach_resources req db :
    reachable db -> reachable (fst (resources_route req db))
| reach_allocate req db :
    reachable db -> reachable (fst (allocate_route req db))
| reach_report now req db :
    reachable db -> reachable (fst (report_route now req db)).

(** ** Properties of a store *)

(** Two half-open intervals [s1,e1) and [s2,e2) overlap. *)
Definition overlaps (s1 e1 s2 e2 : datetime) : Prop := s1 < e2 /\ s2 < e1.

(** No event ends before it starts. *)
Definition events_ordered (db : Store) : Prop :=
  Forall (fun ev => ev_start ev <= ev_end ev) (events_col db).

(** The allocation's event is in the store. *)
Definition resolves (db : Store) (a : Allocation) : Prop :=
  find_one_event db (al_event_id a) <> None.

(** Every allocation of the resource references an event of the store. *)
Definition allocations_resolve (db : Store) (rid : ObjectId) : Prop :=
  Forall (resolves db) (find_allocations db rid).

(** Every allocation references an event of the store. *)
Definition all_allocations_resolve (db : Store) : Prop :=
  Forall (resolves db) (allocations_col db).

(** The no-overlap invariant: two allocations at different positions of
    the collection that share the resource reference events whose
    intervals do not overlap. *)
Definition no_overlap (db : Store) : Prop :=
  forall i j a b ea eb,
    i <> j ->
    nth_error (allocations_col db) i = Some a ->
    nth_error (allocations_col db) j = Some b ->
    al_resource_id a = al_resource_id b ->
    find_one_event db (al_event_id a) = Some ea ->
    find_one_event db (al_event_id b) = Some eb ->
    ~ overlaps (ev_start ea) (ev_end ea) (ev_start eb) (ev_end eb).

(** No two allocations at different positions of the collection bind
    the same event to the same resource when that event, as the store
    has it, starts before it ends. *)
Definition no_duplicate_binding (db : Store) : Prop :=
  forall i j a b ev,
    i <> j ->
    nth_error (allocations_col db) i = Some a ->
    nth_error (allocations_col db) j = Some b ->
    al_event_id a = al_event_id b ->
    al_resource_id a = al_resource_id b ->
    find_one_event db (al_event_id a) = Some ev ->
    ~ ev_start ev < ev_end ev.

(** A response with the [upcoming] counts of the report left out. *)
Definition hide_upcoming (resp : Response) : Response :=
  match resp with
  | render_report rows => render_report (map (fun row => (fst row, 0)) rows)
  | _ => resp
  end.

(** At every reading, the two clocks are on the same side of the start
    of every event an allocation of the store references. *)
Definition clocks_agree (db : Store) (now1 now2 : Clock) : Prop :=
  forall a ev k k',
    In a (allocations_col db) ->
    find_one_event db (al_event_id a) = Some ev ->
    (ev_start ev >? now1 k) = (ev_start ev >? now2 k').

(** ** Scenarios

    Concrete stores and requests, most of them built by the view
    functions themselves from the empty database. *)

(** Day [d] (counted from 0) at [hh]:[mm]. *)
Definition at_time (d hh mm : Z) : datetime :=
  (((d * 24 + hh) * 60 + mm) * 60) * 1000000.

Definition post {F : Type} (f : F) : Request F := mkRequest (Some "admin") POST f.

Definition schedule (title : string) (start end_ : datetime) : Request EventForm :=
  post (mkEventForm title (Some (naive start)) (Some (naive end_)) "").

Definition book (event resource : ObjectId) : Request AllocateForm :=
  post (mkAllocateForm (Some event) (Some resource)).

Definition window (start end_ : datetime) : Request ReportForm :=
  post (mkReportForm (Some (naive start)) (Some (naive end_))).

(** Events 0 = [10:00,11:00), 1 = [11:00,12:00), 2 = [10:30,10:45) and
    the resource 3; no allocation yet. *)
Definition base_store : Store :=
  let db := fst (events (schedule "Standup" (at_time 0 10 0) (at_time 0 11 0)) empty_store) in
  let db := fst (events (schedule "Review" (at_time 0 11 0) (at_time 0 12 0)) db) in
  let db := fst (events (schedule "Call" (at_time 0 10 30) (at_time 0 10 45)) db) in
  fst (resources (post (mkResourceForm "Room 1" "room")) db).

(** [base_store] with the resource allocated to event 0. *)
Definition booked_store : Store := fst (allocate (book 0%N 3%N) base_store).

(** A store no view function builds: the second allocation of resource 1
    references event 9, which is not in the store. *)
Definition dangling_store : Store :=
  {| events_col := [mkEvent 0%N "Standup" (at_time 0 10 0) (at_time 0 11 0) ""];
     resources_col := [mkResource 1%N "Room 1" "room"];
     allocations_col := [mkAllocation 2%N 0%N 1%N; mkAllocation 3%N 9%N 1%N];
     next_oid := 4%N |}.

(** Events 0 = [09:00,10:30) and 1 = [14:00,15:00), both allocated to the
    resource 2. *)
Definition report_store : Store :=
  let db := fst (events (schedule "A" (at_time 0 9 0) (at_time 0 10 30)) empty_store) in
  let db := fst (events (schedule "B" (at_time 0 14 0) (at_time 0 15 0)) db) in
  let db := fst (resources (post (mkResourceForm "R" "room")) db) in
  let db := fst (allocate (book 0%N 2%N) db) in
  fst (allocate (book 1%N 2%N) db).

(** Event 0 lasts 25 hours, from 22:00 to 23:00 the day after, and is
    allocated to the resource 1. *)
Definition overnight_store : Store :=
  let db := fst (events (schedule "Retreat" (at_time 0 22 0) (at_time 1 23 0)) empty_store) in
  let db := fst (resources (post (mkResourceForm "Hall" "room")) db) in
  fst (allocate (book 0%N 1%N) db).

(** [dangling_store] with the two allocations in the other order. *)
Definition dangling_first_store : Store :=
  {| events_col := events_col dangling_store;
     resources_col := resources_col dangling_store;
     allocations_col := [mkAllocation 2%N 9%N 1%N; mkAllocation 3%N 0%N 1%N];
     next_oid := 4%N |}.

(** A clock that stands still while a request is served. *)
Definition clock_at (t : datetime) : Clock := fun _ => t.

(** ** Accounts, index and dashboard *)

(** A document of [users_col]; its "_id" is never read. *)
Record User := mkUser {
  user_username : string;    (* "username" *)
  user_password : string     (* "password": the hash *)
}.

(** The forms of the account pages are read with
    [request.form.get(key, "")]: a field may be absent. *)
Record RegisterForm := mkRegisterForm {
  reg_username : option string;   (* "username" *)
  reg_password : option string;   (* "password" *)
  reg_confirm : option string     (* "confirm" *)
}.

Record LoginForm := mkLoginForm {
  login_username : option string;   (* "username" *)
  login_password : option string    (* "password" *)
}.

(** [request.form.get(key, "")] *)
Definition form_get (field : option string) : string :=
  match field with
  | Some text => text
  | None => ""
  end.

(** What the account pages, the index and the dashboard return. *)
Inductive Page :=
| page_redirect (location : string)
| page_index
| page_register (error : option string)
| page_login (error : option string)
| page_home (username : option string)
    (total_events total_resources total_allocations : Z)
    (upcoming : list Event).

(** [users_col.find_one({"username": username})] *)
Definition find_one_user (users_col : list User) (username : string) : option User :=
  find (fun u => String.eqb (user_username u) username) users_col.

Section Accounts.

(** [str.strip], and werkzeug's two functions; [generate_password_hash]
    draws a salt, which is its first argument here. *)
Variable strip : string -> string.
Variable generate_password_hash : string -> string -> string.
Variable check_password_hash : string -> string -> bool.

Definition register (salt : string) (req : Request RegisterForm)
    (users_col : list User) : list User * Page :=
  match method req with
  | POST =>
      let username := strip (form_get (reg_username (form req))) in
      let password := form_get (reg_password (form req)) in
      let confirm := form_get (reg_confirm (form req)) in
      if String.eqb username "" || String.eqb password "" then
        (users_col, page_register (Some "Username and password are required"))
      else if negb (String.eqb password confirm) then
        (users_col, page_register (Some "Passwords do not match"))
      else
        match find_one_user users_col username with
        | Some _ => (users_col, page_register (Some "Username already taken"))
        | None =>
            (users_col ++ [mkUser username (generate_password_hash salt password)],
             page_redirect "/login")
        end
  | GET => (users_col, page_register None)
  end.

(** [login] returns the session's "user" entry as it leaves it. *)
Definition login (req : Request LoginForm) (users_col : list User)
    : option string * Page :=
  match method req with
  | POST =>
      let username := form_get (login_username (form req)) in
      let password := form_get (login_password (form req)) in
      match find_one_user users_col username with
      | Some user =>
          if check_password_hash (user_password user) password
          then (Some (user_username user), page_redirect "/home")
          else (session_user req, page_login (Some "Invalid username or password"))
      | None => (session_user req, page_login (Some "Invalid username or password"))
      end
  | GET => (session_user req, page_login None)
  end.

End Accounts.

(** [logout]: [session.clear()] *)
Definition logout (req : Request unit) : option string * Page :=
  (None, page_redirect "/login").

Definition index (req : Request unit) : Page :=
  match session_user req with
  | Some _ => page_redirect "/home"
  | None => page_index
  end.

(** [.sort("start", 1)]: ascending by "start"; documents with the same
    start keep the order of the collection. *)
Fixpoint insert_by_start (ev : Event) (sorted : list Event) : list Event :=
  match sorted with
  | [] => [ev]
  | x :: rest =>
      if ev_start ev <=? ev_start x then ev :: sorted
      else x :: insert_by_start ev rest
  end.

Fixpoint sort_by_start (l : list Event) : list Event :=
  match l with
  | [] => []
  | ev :: rest => insert_by_start ev (sort_by_start rest)
  end.

(** [events_col.find({"start": {"$gt": now}}).sort("start", 1).limit(5)] *)
Definition upcoming_events (db : Store) (now : datetime) : list Event :=
  firstn 5 (sort_by_start (filter (fun ev => ev_start ev >? now) (events_col db))).

Definition home (now : Clock) (req : Request unit) (db : Store) : Page :=
  let username := session_user req in
  let total_events := Z.of_nat (List.length (events_col db)) in
  let total_resources := Z.of_nat (List.length (resources_col db)) in
  let total_allocations := Z.of_nat (List.length (allocations_col db)) in
  let upcoming := upcoming_events db (now 0%nat) in
  page_home username total_events total_resources total_allocations upcoming.

(** [login_required] around [home]. *)
Definition home_route (now : Clock) (req : Request unit) (db : Store) : Page :=
  match session_user req with
  | None => page_redirect "/login"
  | Some _ => home now req db
  end.

(** ** Runs of requests *)

(** A request to one of the four routes that reach the collections of
    events, resources and allocations. *)
Inductive RouteRequest :=
| to_events (req : Request EventForm)
| to_resources (req : Request ResourceForm)
| to_allocate (req : Request AllocateForm)
| to_report (now : Clock) (req : Request ReportForm).

Definition serve (r : RouteRequest) (db : Store) : Store * Response :=
  match r with
  | to_events req => events_route req db
  | to_resources req => resources_route req db
  | to_allocate req => allocate_route req db
  | to_report now req => report_route now req db
  end.

(** The requests served one after the other. *)
Fixpoint run (rs : list RouteRequest) (db : Store) : Store * list Response :=
  match rs with
  | [] => (db, [])
  | r :: rest =>
      let out := serve r db in
      let outs := run rest (fst out) in
      (fst outs, snd out :: snd outs)
  end.

Definition anonymous (r : RouteRequest) : Prop :=
  match r with
  | to_events req => session_user req = None
  | to_resources req => session_user req = None
  | to_allocate req => session_user req = None
  | to_report _ req => session_user req = None
  end.

(** The event of an allocation starts after [t]. *)
Definition starts_after (db : Store) (t : datetime) (a : Allocation) : bool :=
  match find_one_event db (al_event_id a) with
  | Some ev => ev_start ev >? t
  | None => false
  end.

(** The usernames of the accounts are pairwise distinct and none is empty. *)
Definition usernames_unique (users_col : list User) : Prop :=
  NoDup (map user_username users_col) /\
  Forall (fun u => user_username u <> "") users_col.

(** The events of the resource's allocations that meet the window, in
    the order of the allocations; the stored events are naive, and none
    compares with an aware bound. *)
Definition booked_events (db : Store) (start end_ : iso_datetime) (rid : ObjectId)
    : list Event :=
  filter (fun ev => match start, end_ with
                    | naive s, naive e => (ev_end ev >? s) && (ev_start ev <? e)
                    | _, _ => false
                    end)
    (flat_map (fun a => match find_one_event db (al_event_id a) with
                        | Some ev => [ev]
                        | None => []
                        end)
       (find_allocations db rid)).

(** The [seconds] component of each duration over 3600, added from the
    left to [hours]. *)
Definition add_hours (hours : pynum) (evs : list Event) : pynum :=
  fold_left (fun h ev => iadd h (truediv (seconds (ev_end ev - ev_start ev)) 3600))
    evs hours.

(** ** More scenarios *)

Definition no_strip (text : string) : string := text.
Definition plain_hash (salt password : string) : string := password.
Definition plain_check (pwhash password : string) : bool := String.eqb pwhash password.

Definition sign_up (username password confirm : string) : Request RegisterForm :=
  mkRequest None POST (mkRegisterForm (Some username) (Some password) (Some confirm)).

Definition sign_in (username password : string) : Request LoginForm :=
  mkRequest None POST (mkLoginForm (Some username) (Some password)).

(** Three events and a room; the room is asked for the standup, then for
    the call inside it, then for the review that follows it. *)
Definition busy_day : list RouteRequest :=
  [to_events (schedule "Standup" (at_time 0 10 0) (at_time 0 11 0));
   to_events (schedule "Review" (at_time 0 11 0) (at_time 0 12 0));
   to_events (schedule "Call" (at_time 0 10 30) (at_time 0 10 45));
   to_resources (post (mkResourceForm "Room 1" "room"));
   to_allocate (book 0%N 3%N);
   to_allocate (book 2%N 3%N);
   to_allocate (book 1%N 3%N)].

(** An event of half a millisecond, stored with its start equal to its
    end, a standup, and a room that is asked twice for each. *)
Definition blink_day : list RouteRequest :=
  [to_events (schedule "Blink" (at_time 0 9 0) (at_time 0 9 0 + 500));
   to_events (schedule "Standup" (at_time 0 10 0) (at_time 0 11 0));
   to_resources (post (mkResourceForm "Room 1" "room"));
   to_allocate (book 0%N 2%N);
   to_allocate (book 0%N 2%N);
   to_allocate (book 1%N 2%N);
   to_allocate (book 1%N 2%N)].

Definition blink_store : Store := fst (run blink_day empty_store).

(** A store with its allocations in the reverse order. *)
Definition reversed (db : Store) : Store :=
  {| events_col := events_col db;
     resources_col := resources_col db;
     allocations_col := rev (allocations_col db);
     next_oid := next_oid db |}.

(** * Verification *)

(** ** The conflict test and the scan *)

Lemma find_allocations_In (db : Store) (rid : ObjectId) (a : Allocation) :
  In a (find_allocations db rid) <->
  In a (allocations_col db) /\ al_resource_id a = rid.
Proof.
  unfold find_allocations. rewrite filter_In, N.eqb_eq. tauto.
Qed.

Lemma find_one_event_id (db : Store) (oid : ObjectId) (ev : Event) :
  find_one_event db oid = Some ev -> ev_id ev = oid /\ In ev (events_col db).
Proof.
  unfold find_one_event. intros H.
  destruct (find_some _ _ H) as [Hin Heq].
  apply N.eqb_eq in Heq. auto.
Qed.

Section Scan.

Variable db : Store.
Variables start end_ : datetime.

Lemma conflict_test_overlaps (ev : Event) :
  negb ((end_ <=? ev_start ev) || (start >=? ev_end ev)) = true <->
  overlaps start end_ (ev_start ev) (ev_end ev).
Proof.
  unfold overlaps.
  rewrite negb_true_iff, orb_false_iff, Z.leb_gt, Z.geb_leb, Z.leb_gt.
  tauto.
Qed.

Lemma conflict_test_apart (ev : Event) :
  negb ((end_ <=? ev_start ev) || (start >=? ev_end ev)) = false <->
  end_ <= ev_start ev \/ ev_end ev <= start.
Proof.
  rewrite negb_false_iff, orb_true_iff, Z.leb_le, Z.geb_leb, Z.leb_le.
  tauto.
Qed.

(** The scan answers [True] only for an overlap it has seen. *)
Lemma scan_true_overlap (l : list Allocation) :
  has_conflict_scan db l start end_ = Ok true ->
  exists a ev, In a l /\ find_one_event db (al_event_id a) = Some ev /\
               overlaps start end_ (ev_start ev) (ev_end ev).
Proof.
  induction l as [|a l IH]; simpl; [discriminate|].
  destruct (find_one_event db (al_event_id a)) as [ev|] eqn:Hev; [|discriminate].
  destruct (negb _) eqn:Htest.
  - intros _. exists a, ev. rewrite <- conflict_test_overlaps. auto.
  - intros H. destruct (IH H) as (b & eb & Hin & Hb & Hov).
    exists b, eb. auto.
Qed.

(** The scan answers [False] exactly when it has fetched every event and
    found each apart from the candidate interval. *)
Lemma scan_false_apart (l : list Allocation) :
  has_conflict_scan db l start end_ = Ok false <->
  Forall (fun a => exists ev, find_one_event db (al_event_id a) = Some ev /\
                              (end_ <= ev_start ev \/ ev_end ev <= start)) l.
Proof.
  induction l as [|a l IH]; simpl.
  - split; auto.
  - destruct (find_one_event db (al_event_id a)) as [ev|] eqn:Hev.
    + destruct (negb _) eqn:Htest.
      * split; [discriminate|].
        intros H. inversion H as [|? ? (ev' & Hev' & Hap) _]; subst.
        rewrite Hev in Hev'. injection Hev' as <-.
        apply conflict_test_apart in Hap. congruence.
      * rewrite IH. split.
        -- intros H. constructor; [|exact H].
           exists ev. split; [exact Hev|]. now apply conflict_test_apart.
        -- intros H. now inversion H.
    + split; [discriminate|].
      intros H. inversion H as [|? ? (ev' & Hev' & _) _]; subst. congruence.
Qed.

(** With every event in the store, an overlap anywhere in the cursor is
    found. *)
Lemma scan_overlap_true (l : list Allocation) :
  Forall (resolves db) l ->
  (exists a ev, In a l /\ find_one_event db (al_event_id a) = Some ev /\
                overlaps start end_ (ev_start ev) (ev_end ev)) ->
  has_conflict_scan db l start end_ = Ok true.
Proof.
  induction l as [|a l IH]; intros Hres (b & eb & Hin & Hb & Hov).
  - destruct Hin.
  - inversion Hres as [|? ? Ha Hl]; subst. simpl.
    destruct (find_one_event db (al_event_id a)) as [ev|] eqn:Hev;
      [|now elim Ha].
    destruct (negb _) eqn:Htest; [reflexivity|].
    apply IH; [exact Hl|].
    destruct Hin as [<-|Hin].
    + rewrite Hev in Hb. injection Hb as <-.
      apply conflict_test_overlaps in Hov. congruence.
    + exists b, eb. auto.
Qed.

(** With every event in the store the scan does not raise. *)
Lemma scan_resolved_total (l : list Allocation) :
  Forall (resolves db) l ->
  exists answer, has_conflict_scan db l start end_ = Ok answer.
Proof.
  induction l as [|a l IH]; intros Hres; simpl.
  - now exists false.
  - inversion Hres as [|? ? Ha Hl]; subst.
    destruct (find_one_event db (al_event_id a)) as [ev|] eqn:Hev;
      [|now elim Ha].
    destruct (negb _); [now exists true|auto].
Qed.

End Scan.

(** ** What [allocate] does *)

Lemma allocate_post (req : Request AllocateForm) (db : Store)
    (oid rid : ObjectId) (ev : Event) :
  method req = POST ->
  form_event (form req) = Some oid ->
  form_resource (form req) = Some rid ->
  find_one_event db oid = Some ev ->
  allocate req db =
    match has_conflict db rid (ev_start ev) (ev_end ev) with
    | Ok true => (db, body "Conflict: Resource already booked")
    | Ok false => (insert_allocation db (ev_id ev) rid,
                   render_allocate (events_col db) (resources_col db))
    | Raise e => (db, server_error e)
    end.
Proof.
  intros Hm Hev Hres Hfind. unfold allocate.
  rewrite Hm, Hev, Hres. simpl. rewrite Hfind.
  destruct (has_conflict db rid (ev_start ev) (ev_end ev)) as [[|]|e]; reflexivity.
Qed.

(** [allocate] leaves the store as it was, or it has fetched the event,
    the scan has answered [False] and the allocation is appended. *)
Lemma allocate_cases (req : Request AllocateForm) (db : Store) :
  fst (allocate req db) = db \/
  exists oid rid ev,
    find_one_event db oid = Some ev /\
    has_conflict db rid (ev_start ev) (ev_end ev) = Ok false /\
    allocate req db = (insert_allocation db (ev_id ev) rid,
                       render_allocate (events_col db) (resources_col db)).
Proof.
  unfold allocate.
  destruct (method req); [left; reflexivity|].
  destruct (form_event (form req)) as [oid|]; [|left; reflexivity].
  destruct (form_resource (form req)) as [rid|]; [|left; reflexivity].
  simpl.
  destruct (find_one_event db oid) as [ev|] eqn:Hfind; [|left; reflexivity].
  destruct (has_conflict db rid (ev_start ev) (ev_end ev)) as [[|]|e] eqn:Hc;
    simpl; try (left; reflexivity).
  right. exists oid, rid, ev. auto.
Qed.

Lemma find_one_event_insert_allocation (db : Store) (eid rid oid : ObjectId) :
  find_one_event (insert_allocation db eid rid) oid = find_one_event db oid.
Proof. reflexivity. Qed.

Lemma nth_error_snoc {A : Type} (l : list A) (x a : A) (i : nat) :
  nth_error (l ++ [x]) i = Some a ->
  nth_error l i = Some a \/ (i = List.length l /\ a = x).
Proof.
  intros H.
  destruct (Nat.lt_ge_cases i (List.length l)) as [Hlt|Hge].
  - left. now rewrite nth_error_app1 in H.
  - right. rewrite nth_error_app2 in H by exact Hge.
    destruct (i - List.length l)%nat as [|k] eqn:Hk; simpl in H.
    + split; [lia|congruence].
    + destruct k; discriminate.
Qed.

(** After a scan that answered [False], the event of every allocation of
    the resource is apart from the candidate's interval. *)
Lemma has_conflict_false_apart (db : Store) (rid : ObjectId)
    (start end_ : datetime) (a : Allocation) (ea : Event) :
  has_conflict db rid start end_ = Ok false ->
  In a (allocations_col db) ->
  al_resource_id a = rid ->
  find_one_event db (al_event_id a) = Some ea ->
  end_ <= ev_start ea \/ ev_end ea <= start.
Proof.
  unfold has_conflict. rewrite scan_false_apart, Forall_forall.
  intros Hall Hin Hrid Hea.
  destruct (Hall a) as (ev & Hev & Hap).
  - apply find_allocations_In. auto.
  - congruence.
Qed.

Lemma no_overlap_insert_allocation (db : Store) (oid rid : ObjectId) (ev : Event) :
  no_overlap db ->
  find_one_event db oid = Some ev ->
  has_conflict db rid (ev_start ev) (ev_end ev) = Ok false ->
  no_overlap (insert_allocation db (ev_id ev) rid).
Proof.
  intros Hinv Hfind Hc i j a b ea eb Hij Hi Hj Hsame Hea Heb [Hov1 Hov2].
  rewrite find_one_event_insert_allocation in Hea, Heb.
  destruct (find_one_event_id _ _ _ Hfind) as [Hid _].
  simpl in Hi, Hj.
  apply nth_error_snoc in Hi. apply nth_error_snoc in Hj.
  destruct Hi as [Hi|[Hi ->]], Hj as [Hj|[Hj ->]].
  - apply (Hinv i j a b ea eb); try assumption. split; assumption.
  - simpl in Hsame, Heb. rewrite Hid, Hfind in Heb. injection Heb as <-.
    apply nth_error_In in Hi.
    destruct (has_conflict_false_apart _ _ _ _ _ _ Hc Hi Hsame Hea); lia.
  - simpl in Hsame, Hea. rewrite Hid, Hfind in Hea. injection Hea as <-.
    apply nth_error_In in Hj.
    destruct (has_conflict_false_apart _ _ _ _ _ _ Hc Hj (eq_sym Hsame) Heb); lia.
  - congruence.
Qed.

(** A collection of at most one allocation has no pair to compare. *)
Lemma no_overlap_short (db : Store) :
  (List.length (allocations_col db) <= 1)%nat -> no_overlap db.
Proof.
  intros Hlen i j a b ea eb Hij Hi Hj _ _ _ _.
  assert (i < List.length (allocations_col db))%nat
    by (apply nth_error_Some; congruence).
  assert (j < List.length (allocations_col db))%nat
    by (apply nth_error_Some; congruence).
  lia.
Qed.

(** C1. No-overlap invariant: from a store in which the events of any two
    allocations of one resource have intervals that do not overlap,
    [allocate] leaves a store with the same property, whatever the
    request; a successful one appends the allocation and keeps it. *)
Theorem allocate_preserves_no_overlap (req : Request AllocateForm) (db : Store) :
  no_overlap db -> no_overlap (fst (allocate req db)).
Proof.
  intros Hinv.
  destruct (allocate_cases req db) as [->|(oid & rid & ev & Hfind & Hc & ->)].
  - exact Hinv.
  - simpl. now apply no_overlap_insert_allocation with (oid := oid).
Qed.

Lemma allocate_preserves_no_overlap_witness :
  no_overlap booked_store /\
  no_overlap (fst (allocate (book 1%N 3%N) booked_store)) /\
  List.length (allocations_col (fst (allocate (book 1%N 3%N) booked_store))) = 2%nat.
Proof.
  assert (H : no_overlap booked_store)
    by (apply no_overlap_short; vm_compute; lia).
  split; [exact H|].
  split; [apply (allocate_preserves_no_overlap (book 1%N 3%N) booked_store H)|].
  vm_compute. reflexivity.
Defined.

(** ** The conflict detector *)

Lemma has_conflict_true_iff (db : Store) (rid : ObjectId) (start end_ : datetime) :
  allocations_resolve db rid ->
  (has_conflict db rid start end_ = Ok true <->
   exists a ev,
     In a (allocations_col db) /\ al_resource_id a = rid /\
     find_one_event db (al_event_id a) = Some ev /\
     start < ev_end ev /\ ev_start ev < end_).
Proof.
  intros Hres. unfold has_conflict. split.
  - intros H. destruct (scan_true_overlap _ _ _ _ H) as (a & ev & Hin & Hev & Hov).
    apply find_allocations_In in Hin. exists a, ev. unfold overlaps in Hov. tauto.
  - intros (a & ev & Hin & Hrid & Hev & Hov).
    apply scan_overlap_true; [exact Hres|].
    exists a, ev. rewrite find_allocations_In. unfold overlaps. tauto.
Qed.

Lemma has_conflict_false_iff (db : Store) (rid : ObjectId) (start end_ : datetime) :
  allocations_resolve db rid ->
  (has_conflict db rid start end_ = Ok false <->
   forall a ev,
     In a (allocations_col db) -> al_resource_id a = rid ->
     find_one_event db (al_event_id a) = Some ev ->
     end_ <= ev_start ev \/ ev_end ev <= start).
Proof.
  intros Hres. split.
  - intros H a ev. now apply has_conflict_false_apart.
  - intros H. unfold has_conflict. apply scan_false_apart.
    unfold allocations_resolve in Hres. rewrite Forall_forall in *.
    intros a Hin. specialize (Hres a Hin). unfold resolves in Hres.
    destruct (find_one_event db (al_event_id a)) as [ev|] eqn:Hev; [|now elim Hres].
    exists ev. split; [reflexivity|].
    apply find_allocations_In in Hin. destruct Hin. now apply (H a).
Qed.

(** C2. Overlap semantics of the conflict detector: in a store where the
    allocations of the resource reference events of the store,
    [has_conflict] returns [True] exactly when some allocation of the
    resource references an event [s,e) with [start < e] and [s < end];
    it returns [False] exactly when every such event ends at or before
    [start] or starts at or after [end], so an interval that only touches
    is no conflict; [allocate] then renders the page and the allocations
    of the store are those it had followed by the new one, which binds
    the candidate event to the resource. *)
Theorem has_conflict_overlap_semantics (db : Store) (rid : ObjectId)
    (start end_ : datetime) :
  allocations_resolve db rid ->
  (has_conflict db rid start end_ = Ok true <->
   exists a ev,
     In a (allocations_col db) /\ al_resource_id a = rid /\
     find_one_event db (al_event_id a) = Some ev /\
     start < ev_end ev /\ ev_start ev < end_) /\
  (has_conflict db rid start end_ = Ok false <->
   forall a ev,
     In a (allocations_col db) -> al_resource_id a = rid ->
     find_one_event db (al_event_id a) = Some ev ->
     end_ <= ev_start ev \/ ev_end ev <= start) /\
  (forall req oid candidate,
     method req = POST ->
     form_event (form req) = Some oid ->
     form_resource (form req) = Some rid ->
     find_one_event db oid = Some candidate ->
     ev_start candidate = start ->
     ev_end candidate = end_ ->
     (forall a ev,
        In a (allocations_col db) -> al_resource_id a = rid ->
        find_one_event db (al_event_id a) = Some ev ->
        end_ <= ev_start ev \/ ev_end ev <= start) ->
     snd (allocate req db) = render_allocate (events_col db) (resources_col db) /\
     allocations_col (fst (allocate req db)) =
       allocations_col db ++ [mkAllocation (next_oid db) oid rid] /\
     events_col (fst (allocate req db)) = events_col db /\
     resources_col (fst (allocate req db)) = resources_col db).
Proof.
  intros Hres.
  split; [now apply has_conflict_true_iff|].
  split; [now apply has_conflict_false_iff|].
  intros req oid candidate Hm Hev Hrid Hfind Hs He Hap.
  rewrite (allocate_post req db oid rid candidate Hm Hev Hrid Hfind).
  rewrite Hs, He.
  rewrite (proj2 (has_conflict_false_iff db rid start end_ Hres) Hap).
  destruct (find_one_event_id _ _ _ Hfind) as [-> _].
  simpl. auto.
Qed.

Lemma has_conflict_overlap_semantics_witness :
  allocations_resolve booked_store 3%N /\
  has_conflict booked_store 3%N (at_time 0 11 0) (at_time 0 12 0) = Ok false /\
  snd (allocate (book 1%N 3%N) booked_store) =
    render_allocate (events_col base_store) (resources_col base_store) /\
  allocations_col (fst (allocate (book 1%N 3%N) booked_store)) =
    [mkAllocation 4%N 0%N 3%N; mkAllocation 5%N 1%N 3%N].
Proof.
  assert (Hres : allocations_resolve booked_store 3%N)
    by (repeat constructor; vm_compute; discriminate).
  pose proof (has_conflict_overlap_semantics booked_store 3%N
                (at_time 0 11 0) (at_time 0 12 0) Hres) as (_ & Hfalse & Halloc).
  assert (Hap : forall a ev,
             In a (allocations_col booked_store) -> al_resource_id a = 3%N ->
             find_one_event booked_store (al_event_id a) = Some ev ->
             at_time 0 12 0 <= ev_start ev \/ ev_end ev <= at_time 0 11 0).
  { intros a ev [<-|[]] _ Hev. vm_compute in Hev. injection Hev as <-.
    right. unfold at_time. simpl. lia. }
  split; [exact Hres|].
  split; [apply Hfalse; exact Hap|].
  destruct (Halloc (book 1%N 3%N) 1%N
              (mkEvent 1%N "Review" (at_time 0 11 0) (at_time 0 12 0) "")
              eq_refl eq_refl eq_refl eq_refl eq_refl eq_refl Hap)
    as (Hpage & Hallocs & _ & _).
  split; [exact Hpage|].
  rewrite Hallocs. reflexivity.
Defined.

(** The spec's example: [10:00,11:00) and then [11:00,12:00) on the same
    resource are both allocated. *)
Example touching_events_both_allocate :
  allocate (book 0%N 3%N) base_store =
    (booked_store, render_allocate (events_col base_store) (resources_col base_store)) /\
  snd (allocate (book 1%N 3%N) booked_store) =
    render_allocate (events_col base_store) (resources_col base_store) /\
  allocations_col (fst (allocate (book 1%N 3%N) booked_store)) =
    [mkAllocation 4%N 0%N 3%N; mkAllocation 5%N 1%N 3%N].
Proof. repeat split; vm_compute; reflexivity. Qed.

(** ** Rejection *)

(** An overlap among the resource's allocations: the scan does not answer
    [False], so nothing is inserted. *)
Lemma allocate_overlap_unchanged (req : Request AllocateForm) (db : Store)
    (oid rid : ObjectId) (candidate : Event) (a : Allocation) (ea : Event) :
  method req = POST ->
  form_event (form req) = Some oid ->
  form_resource (form req) = Some rid ->
  find_one_event db oid = Some candidate ->
  In a (allocations_col db) ->
  al_resource_id a = rid ->
  find_one_event db (al_event_id a) = Some ea ->
  overlaps (ev_start candidate) (ev_end candidate) (ev_start ea) (ev_end ea) ->
  allocate req db = (db, body "Conflict: Resource already booked") \/
  allocate req db = (db, server_error TypeError).
Proof.
  intros Hm Hev Hrid Hfind Hin Ha Hea [Hov1 Hov2].
  rewrite (allocate_post req db oid rid candidate Hm Hev Hrid Hfind).
  unfold has_conflict.
  destruct (has_conflict_scan db (find_allocations db rid)
              (ev_start candidate) (ev_end candidate)) as [[|]|e] eqn:Hc.
  - now left.
  - destruct (has_conflict_false_apart db rid _ _ a ea Hc Hin Ha Hea); lia.
  - right. f_equal. f_equal. clear - Hc.
    induction (find_allocations db rid) as [|b l IH]; simpl in Hc; [discriminate|].
    destruct (find_one_event db (al_event_id b)); [|congruence].
    destruct (negb _); [discriminate|auto].
Qed.

(** With the events of the resource's allocations in the store, the
    overlap is found and the request is answered with the conflict. *)
Lemma allocate_overlap_conflict (req : Request AllocateForm) (db : Store)
    (oid rid : ObjectId) (candidate : Event) (a : Allocation) (ea : Event) :
  method req = POST ->
  form_event (form req) = Some oid ->
  form_resource (form req) = Some rid ->
  find_one_event db oid = Some candidate ->
  allocations_resolve db rid ->
  In a (allocations_col db) ->
  al_resource_id a = rid ->
  find_one_event db (al_event_id a) = Some ea ->
  overlaps (ev_start candidate) (ev_end candidate) (ev_start ea) (ev_end ea) ->
  allocate req db = (db, body "Conflict: Resource already booked").
Proof.
  intros Hm Hev Hrid Hfind Hres Hin Ha Hea Hov.
  rewrite (allocate_post req db oid rid candidate Hm Hev Hrid Hfind).
  assert (Hc : has_conflict db rid (ev_start candidate) (ev_end candidate) = Ok true).
  { apply has_conflict_true_iff; [exact Hres|].
    exists a, ea. unfold overlaps in Hov. tauto. }
  now rewrite Hc.
Qed.

(** C3. Rejection on overlap is atomic: when an allocation of the resource
    references an event of the store whose interval overlaps the
    candidate event's, [allocate] leaves the store it found, allocations
    included; and with the events of the resource's allocations all in the
    store, its answer is the conflict message. *)
Theorem allocate_rejects_overlap (req : Request AllocateForm) (db : Store)
    (oid rid : ObjectId) (candidate : Event) (a : Allocation) (ea : Event) :
  method req = POST ->
  form_event (form req) = Some oid ->
  form_resource (form req) = Some rid ->
  find_one_event db oid = Some candidate ->
  In a (allocations_col db) ->
  al_resource_id a = rid ->
  find_one_event db (al_event_id a) = Some ea ->
  overlaps (ev_start candidate) (ev_end candidate) (ev_start ea) (ev_end ea) ->
  fst (allocate req db) = db /\
  (allocations_resolve db rid ->
   allocate req db = (db, body "Conflict: Resource already booked")).
Proof.
  intros Hm Hev Hrid Hfind Hin Ha Hea Hov. split.
  - destruct (allocate_overlap_unchanged req db oid rid candidate a ea
                Hm Hev Hrid Hfind Hin Ha Hea Hov) as [->| ->]; reflexivity.
  - intros Hres. now apply (allocate_overlap_conflict req db oid rid candidate a ea).
Qed.

Lemma allocate_rejects_overlap_witness :
  allocations_resolve booked_store 3%N /\
  allocate (book 2%N 3%N) booked_store =
    (booked_store, body "Conflict: Resource already booked") /\
  List.length (allocations_col (fst (allocate (book 2%N 3%N) booked_store))) =
    List.length (allocations_col booked_store).
Proof.
  assert (Hres : allocations_resolve booked_store 3%N)
    by (repeat constructor; vm_compute; discriminate).
  assert (H : fst (allocate (book 2%N 3%N) booked_store) = booked_store /\
              (allocations_resolve booked_store 3%N ->
               allocate (book 2%N 3%N) booked_store =
                 (booked_store, body "Conflict: Resource already booked"))).
  { apply (allocate_rejects_overlap (book 2%N 3%N) booked_store 2%N 3%N
             (mkEvent 2%N "Call" (at_time 0 10 30) (at_time 0 10 45) "")
             (mkAllocation 4%N 0%N 3%N)
             (mkEvent 0%N "Standup" (at_time 0 10 0) (at_time 0 11 0) ""));
      try reflexivity.
    - simpl. auto.
    - split; vm_compute; reflexivity. }
  destruct H as [Hfst Hconf].
  split; [exact Hres|]. split; [exact (Hconf Hres)|]. now rewrite Hfst.
Defined.

(** ** Stores the application builds *)

Lemma find_app_some {A : Type} (f : A -> bool) (l l' : list A) (x : A) :
  find f l = Some x -> find f (l ++ l') = Some x.
Proof.
  induction l as [|y l IH]; simpl; [discriminate|].
  destruct (f y); auto.
Qed.

Lemma resolves_insert_event (db : Store) (title description : string)
    (start end_ : iso_datetime) (a : Allocation) :
  resolves db a -> resolves (insert_event db title start end_ description) a.
Proof.
  unfold resolves, find_one_event. simpl.
  destruct (find _ (events_col db)) as [ev|] eqn:Hev; [|now intros []].
  intros _. now rewrite (find_app_some _ _ _ _ Hev).
Qed.

Lemma all_resolve_for_resource (db : Store) (rid : ObjectId) :
  all_allocations_resolve db -> allocations_resolve db rid.
Proof.
  unfold all_allocations_resolve, allocations_resolve.
  rewrite !Forall_forall. intros H a Hin.
  apply find_allocations_In in Hin. now apply H.
Qed.

(** What the order comparisons return. *)
Lemma datetime_ge_comparable (a b : iso_datetime) :
  datetime_ge a b =
    if comparable a b then Ok (utc_instant b <=? utc_instant a)
    else Raise TypeError.
Proof.
  assert (H : forall x y : Z,
             match x ?= y with Lt => false | _ => true end = (y <=? x)).
  { intros x y. destruct (Z.compare_spec x y), (Z.leb_spec y x);
      try reflexivity; lia. }
  destruct a, b; unfold datetime_ge; simpl; try reflexivity; now rewrite H.
Qed.

(** The store keeps the order of two instants, up to equality. *)
Lemma bson_datetime_monotone (a b : iso_datetime) :
  utc_instant a <= utc_instant b -> bson_datetime a <= bson_datetime b.
Proof.
  intros H. unfold bson_datetime.
  apply Z.mul_le_mono_nonneg_r; [lia|].
  apply Z.div_le_mono; lia.
Qed.

(** What a POST to [events] with two parsed times does. *)
Lemma events_post (req : Request EventForm) (db : Store) (start end_ : iso_datetime) :
  method req = POST ->
  form_start (form req) = Some start ->
  form_end (form req) = Some end_ ->
  events req db =
    if comparable start end_ then
      if utc_instant end_ <=? utc_instant start
      then (db, body "Invalid time range")
      else (insert_event db (form_title (form req)) start end_ (form_desc (form req)),
            render_events
              (events_col db ++
               [mkEvent (next_oid db) (form_title (form req))
                  (bson_datetime start) (bson_datetime end_) (form_desc (form req))]))
    else (db, server_error TypeError).
Proof.
  intros Hm Hs He. unfold events. rewrite Hm, Hs, He. simpl.
  rewrite datetime_ge_comparable.
  destruct (comparable start end_); [|reflexivity].
  simpl. destruct (utc_instant end_ <=? utc_instant start); reflexivity.
Qed.

(** [events] leaves the store as it was, or appends an event made from
    two comparable times of which the first is the earlier. *)
Lemma events_cases (req : Request EventForm) (db : Store) :
  fst (events req db) = db \/
  exists start end_,
    comparable start end_ = true /\
    utc_instant start < utc_instant end_ /\
    fst (events req db) =
      insert_event db (form_title (form req)) start end_ (form_desc (form req)).
Proof.
  destruct (method req) eqn:Hm.
  - left. unfold events. now rewrite Hm.
  - destruct (form_start (form req)) as [start|] eqn:Hs;
      [|left; unfold events; now rewrite Hm, Hs].
    destruct (form_end (form req)) as [end_|] eqn:He;
      [|left; unfold events; now rewrite Hm, Hs, He].
    rewrite (events_post req db start end_ Hm Hs He).
    destruct (comparable start end_) eqn:Hc; [|now left].
    destruct (utc_instant end_ <=? utc_instant start) eqn:Hle; [now left|].
    right. exists start, end_. apply Z.leb_gt in Hle. auto.
Qed.

Lemma events_keeps_invariants (req : Request EventForm) (db : Store) :
  events_ordered db /\ all_allocations_resolve db ->
  events_ordered (fst (events req db)) /\ all_allocations_resolve (fst (events req db)).
Proof.
  intros [Hv Hr].
  destruct (events_cases req db) as [->|(start & end_ & _ & Hlt & ->)];
    [now split|].
  split.
  - unfold events_ordered. simpl. apply Forall_app. split; [exact Hv|].
    constructor; [|constructor]. simpl.
    apply bson_datetime_monotone. lia.
  - unfold all_allocations_resolve in *. simpl.
    eapply Forall_impl; [|exact Hr].
    intros a. apply resolves_insert_event.
Qed.

Lemma allocate_keeps_invariants (req : Request AllocateForm) (db : Store) :
  events_ordered db /\ all_allocations_resolve db ->
  events_ordered (fst (allocate req db)) /\ all_allocations_resolve (fst (allocate req db)).
Proof.
  intros [Hv Hr].
  destruct (allocate_cases req db) as [->|(oid & rid & ev & Hfind & _ & ->)];
    [now split|].
  simpl. split; [exact Hv|].
  unfold all_allocations_resolve. simpl. apply Forall_app. split.
  - exact Hr.
  - constructor; [|constructor]. unfold resolves. simpl.
    rewrite find_one_event_insert_allocation.
    destruct (find_one_event_id _ _ _ Hfind) as [-> _]. congruence.
Qed.

(** [report] returns the store it was given. *)
Lemma report_store_unchanged (now : Clock) (req : Request ReportForm) (db : Store) :
  fst (report now req db) = db.
Proof.
  unfold report.
  destruct (method req); [reflexivity|].
  destruct (form_window_start (form req)) as [start|]; [|reflexivity].
  destruct (form_window_end (form req)) as [end_|]; [|reflexivity].
  simpl. destruct (report_rows _ _ _ _ _ _ _); reflexivity.
Qed.

(** In every store the application builds from the empty database no
    event ends before it starts and each allocation references an event
    of the store. *)
Lemma reachable_invariants (db : Store) :
  reachable db -> events_ordered db /\ all_allocations_resolve db.
Proof.
  induction 1 as [|req db _ IH|req db _ IH|req db _ IH|now req db _ IH].
  - split; constructor.
  - unfold events_route, login_required.
    destruct (session_user req); [|exact IH].
    now apply events_keeps_invariants.
  - unfold resources_route, login_required.
    destruct (session_user req); [|exact IH].
    unfold resources. destruct (method req); exact IH.
  - unfold allocate_route, login_required.
    destruct (session_user req); [|exact IH].
    now apply allocate_keeps_invariants.
  - unfold report_route, login_required.
    destruct (session_user req); [|exact IH].
    now rewrite report_store_unchanged.
Qed.

(** ** No duplicate binding *)

Lemma no_duplicate_binding_insert_allocation (db : Store) (oid rid : ObjectId)
    (ev : Event) :
  no_duplicate_binding db ->
  find_one_event db oid = Some ev ->
  has_conflict db rid (ev_start ev) (ev_end ev) = Ok false ->
  no_duplicate_binding (insert_allocation db (ev_id ev) rid).
Proof.
  intros Hinv Hfind Hc i j a b e Hij Hi Hj Hev Hrid He Hlt.
  rewrite find_one_event_insert_allocation in He.
  destruct (find_one_event_id _ _ _ Hfind) as [Hid _].
  simpl in Hi, Hj.
  apply nth_error_snoc in Hi. apply nth_error_snoc in Hj.
  destruct Hi as [Hi|[Hi ->]], Hj as [Hj|[Hj ->]].
  - now apply (Hinv i j a b e).
  - simpl in Hev, Hrid.
    assert (e = ev) by congruence. subst e.
    apply nth_error_In in Hi.
    destruct (has_conflict_false_apart _ _ _ _ _ _ Hc Hi Hrid He); lia.
  - simpl in Hev, Hrid, He.
    assert (e = ev) by congruence. subst e.
    apply nth_error_In in Hj.
    assert (Hb : find_one_event db (al_event_id b) = Some ev) by congruence.
    destruct (has_conflict_false_apart _ _ _ _ _ _ Hc Hj (eq_sym Hrid) Hb); lia.
  - congruence.
Qed.

(** C10. No duplicate binding: when an event of the store with
    [start < end] is already allocated to a resource, a request to
    allocate it to that resource again leaves the store as it was, and is
    answered with the conflict message when the resource's allocations
    reference events of the store; and [allocate] never adds a second
    allocation that binds such an event to the same resource. *)
Theorem allocate_no_duplicate_binding (req : Request AllocateForm) (db : Store) :
  (forall oid rid ev a,
     method req = POST ->
     form_event (form req) = Some oid ->
     form_resource (form req) = Some rid ->
     find_one_event db oid = Some ev ->
     ev_start ev < ev_end ev ->
     In a (allocations_col db) ->
     al_event_id a = oid ->
     al_resource_id a = rid ->
     fst (allocate req db) = db /\
     (allocations_resolve db rid ->
      allocate req db = (db, body "Conflict: Resource already booked"))) /\
  (no_duplicate_binding db -> no_duplicate_binding (fst (allocate req db))).
Proof.
  split.
  - intros oid rid ev a Hm Hev Hrid Hfind Hlt Hin Ha Har.
    assert (Hea : find_one_event db (al_event_id a) = Some ev) by congruence.
    assert (Hov : overlaps (ev_start ev) (ev_end ev) (ev_start ev) (ev_end ev))
      by (split; exact Hlt).
    split.
    + destruct (allocate_overlap_unchanged req db oid rid ev a ev
                  Hm Hev Hrid Hfind Hin Har Hea Hov) as [->| ->]; reflexivity.
    + intros Hres.
      now apply (allocate_overlap_conflict req db oid rid ev a ev).
  - intros Hnd.
    destruct (allocate_cases req db) as [->|(oid & rid & ev & Hfind & Hc & ->)];
      [exact Hnd|].
    simpl. now apply no_duplicate_binding_insert_allocation with (oid := oid).
Qed.

(** The store of [blink_day]: the event stored with [start = end] is
    bound to the room twice, the standup once. *)
Example blink_store_contents :
  blink_store =
    {| events_col :=
         [mkEvent 0%N "Blink" (at_time 0 9 0) (at_time 0 9 0) "";
          mkEvent 1%N "Standup" (at_time 0 10 0) (at_time 0 11 0) ""];
       resources_col := [mkResource 2%N "Room 1" "room"];
       allocations_col :=
         [mkAllocation 3%N 0%N 2%N; mkAllocation 4%N 0%N 2%N;
          mkAllocation 5%N 1%N 2%N];
       next_oid := 6%N |}.
Proof. vm_compute. reflexivity. Qed.

Lemma blink_store_no_duplicate_binding : no_duplicate_binding blink_store.
Proof.
  rewrite blink_store_contents.
  intros i j a b ev Hij Hi Hj Hev Hrid He Hlt. simpl in Hi, Hj.
  destruct i as [|[|[|i]]], j as [|[|[|j]]]; simpl in Hi, Hj;
    try congruence;
    try (destruct i; discriminate); try (destruct j; discriminate);
    injection Hi as <-; injection Hj as <-;
    try discriminate;
    vm_compute in He; injection He as <-; vm_compute in Hlt; discriminate.
Qed.

Lemma allocate_no_duplicate_binding_witness :
  no_duplicate_binding blink_store /\
  allocate (book 1%N 2%N) blink_store =
    (blink_store, body "Conflict: Resource already booked") /\
  no_duplicate_binding (fst (allocate (book 0%N 2%N) blink_store)).
Proof.
  pose proof blink_store_no_duplicate_binding as Hnd.
  split; [exact Hnd|]. split.
  - apply (proj1 (allocate_no_duplicate_binding (book 1%N 2%N) blink_store)
             1%N 2%N (mkEvent 1%N "Standup" (at_time 0 10 0) (at_time 0 11 0) "")
             (mkAllocation 5%N 1%N 2%N)); try reflexivity.
    + rewrite blink_store_contents. simpl. auto.
    + repeat constructor; vm_compute; discriminate.
  - exact (proj2 (allocate_no_duplicate_binding (book 0%N 2%N) blink_store) Hnd).
Defined.

(** ** A reference to a missing event *)

Lemma scan_skip_apart (db : Store) (start end_ : datetime)
    (before rest : list Allocation) :
  Forall (fun b => exists ev, find_one_event db (al_event_id b) = Some ev /\
                              (end_ <= ev_start ev \/ ev_end ev <= start)) before ->
  has_conflict_scan db (before ++ rest) start end_ =
  has_conflict_scan db rest start end_.
Proof.
  induction 1 as [|b before (ev & Hev & Hap) _ IH]; [reflexivity|].
  simpl. rewrite Hev.
  apply conflict_test_apart in Hap. rewrite Hap. exact IH.
Qed.

(** C9. A reference to a missing event: [has_conflict] returns [False]
    only when every allocation of the resource references an event of
    the store; when the scan reaches an allocation whose event is missing
    after allocations that are all apart from the candidate interval, it
    raises TypeError; when it reaches an overlapping allocation first, it
    returns [True] whatever the later allocations reference. *)
Theorem has_conflict_missing_event (db : Store) (rid : ObjectId)
    (start end_ : datetime) (before after : list Allocation) (a : Allocation) :
  find_allocations db rid = before ++ a :: after ->
  Forall (fun b => exists ev, find_one_event db (al_event_id b) = Some ev /\
                              (end_ <= ev_start ev \/ ev_end ev <= start)) before ->
  (find_one_event db (al_event_id a) = None ->
   has_conflict db rid start end_ = Raise TypeError) /\
  (forall ev, find_one_event db (al_event_id a) = Some ev ->
              overlaps start end_ (ev_start ev) (ev_end ev) ->
              has_conflict db rid start end_ = Ok true) /\
  (has_conflict db rid start end_ = Ok false -> allocations_resolve db rid).
Proof.
  intros Hsplit Hbefore. unfold has_conflict.
  split; [|split].
  - intros Hnone. rewrite Hsplit, (scan_skip_apart _ _ _ _ _ Hbefore).
    simpl. now rewrite Hnone.
  - intros ev Hev Hov. rewrite Hsplit, (scan_skip_apart _ _ _ _ _ Hbefore).
    simpl. rewrite Hev.
    apply conflict_test_overlaps in Hov. now rewrite Hov.
  - rewrite scan_false_apart. unfold allocations_resolve.
    apply Forall_impl. intros b (ev & Hev & _). unfold resolves. congruence.
Qed.

Lemma has_conflict_missing_event_witness :
  find_allocations dangling_first_store 1%N =
    [] ++ mkAllocation 2%N 9%N 1%N :: [mkAllocation 3%N 0%N 1%N] /\
  has_conflict dangling_first_store 1%N (at_time 0 10 30) (at_time 0 10 45) =
    Raise TypeError.
Proof.
  split; [reflexivity|].
  apply (has_conflict_missing_event dangling_first_store 1%N
           (at_time 0 10 30) (at_time 0 10 45)
           [] [mkAllocation 3%N 0%N 1%N] (mkAllocation 2%N 9%N 1%N)).
  - reflexivity.
  - constructor.
  - reflexivity.
Defined.

Lemma has_conflict_missing_event_counterexample :
  (exists a, In a (find_allocations dangling_store 1%N) /\
             find_one_event dangling_store (al_event_id a) = None) /\
  has_conflict dangling_store 1%N (at_time 0 10 30) (at_time 0 10 45) = Ok true.
Proof.
  split.
  - exists (mkAllocation 3%N 9%N 1%N). split; [simpl; auto|reflexivity].
  - reflexivity.
Qed.

(** ** Missing references in [allocate] *)




(** ** Validation of the forms *)




(** C8. Resource-creation validation: [resources] validates nothing; a
    POST creates the resource with the name as submitted, the empty name
    included. *)
Theorem resources_accepts_any_name (req : Request ResourceForm) (db : Store) :
  method req = POST ->
  resources req db =
    (insert_resource db (form_name (form req)) (form_type (form req)),
     render_resources
       (resources_col db ++
        [mkResource (next_oid db) (form_name (form req)) (form_type (form req))])).
Proof.
  intros Hm. unfold resources. now rewrite Hm.
Qed.

Lemma resources_accepts_any_name_witness :
  resources_col (fst (resources (post (mkResourceForm "" "room")) empty_store)) =
    [mkResource 0%N "" "room"].
Proof.
  now rewrite (resources_accepts_any_name (post (mkResourceForm "" "room"))
                 empty_store eq_refl).
Defined.

Lemma resources_empty_name_counterexample :
  form_name (form (post (mkResourceForm "" "room"))) = "" /\
  resources (post (mkResourceForm "" "room")) empty_store =
    (mkStore [] [mkResource 0%N "" "room"] [] 1%N,
     render_resources [mkResource 0%N "" "room"]).
Proof. split; reflexivity. Qed.

(** ** The report *)

(** Two runs of the inner loop under different clocks: the same hours,
    the same exception if any, and the same count when the clocks agree
    on the events of the cursor. *)
Lemma report_scan_clocks (db : Store) (now1 now2 : Clock)
    (start end_ : iso_datetime) (l : list Allocation) :
  forall (hours : pynum) (u1 u2 : Z) (t1 t2 : nat),
  match report_scan db now1 start end_ l hours u1 t1,
        report_scan db now2 start end_ l hours u2 t2 with
  | Ok (h1, v1, _), Ok (h2, v2, _) =>
      h1 = h2 /\
      ((forall a ev k k',
          In a l -> find_one_event db (al_event_id a) = Some ev ->
          (ev_start ev >? now1 k) = (ev_start ev >? now2 k')) ->
       u1 = u2 -> v1 = v2)
  | Raise x, Raise y => x = y
  | _, _ => False
  end.
Proof.
  induction l as [|a l IH]; intros hours u1 u2 t1 t2; simpl.
  - split; auto.
  - destruct (find_one_event db (al_event_id a)) as [ev|] eqn:Hev; [|reflexivity].
    destruct (meets_window ev start end_) as [meets|x]; simpl; [|reflexivity].
    specialize (IH
      (if meets
       then iadd hours (truediv (seconds (ev_end ev - ev_start ev)) 3600)
       else hours)
      (if ev_start ev >? now1 t1 then u1 + 1 else u1)
      (if ev_start ev >? now2 t2 then u2 + 1 else u2)
      (S t1) (S t2)).
    destruct (report_scan db now1 _ _ l _ _ _) as [[[h1 v1] t1']|x];
      destruct (report_scan db now2 _ _ l _ _ _) as [[[h2 v2] t2']|y];
      try exact IH.
    destruct IH as [Hh Hv]. split; [exact Hh|].
    intros Hagree Hu. apply Hv.
    + intros b eb k k' Hin. apply Hagree. now right.
    + rewrite (Hagree a ev t1 t2 (or_introl eq_refl) Hev), Hu. reflexivity.
Qed.

Lemma report_rows_clocks (db : Store) (now1 now2 : Clock)
    (start end_ : iso_datetime) (rs : list Resource) :
  forall (rd1 rd2 : list ReportRow) (t1 t2 : nat),
  match report_rows db now1 start end_ rs rd1 t1,
        report_rows db now2 start end_ rs rd2 t2 with
  | Ok (o1, _), Ok (o2, _) =>
      (map (fun row => (fst row, 0)) rd1 = map (fun row => (fst row, 0)) rd2 ->
       map (fun row => (fst row, 0)) o1 = map (fun row => (fst row, 0)) o2) /\
      (clocks_agree db now1 now2 -> rd1 = rd2 -> o1 = o2)
  | Raise x, Raise y => x = y
  | _, _ => False
  end.
Proof.
  induction rs as [|r rs IH]; intros rd1 rd2 t1 t2; simpl.
  - split; auto.
  - pose proof (report_scan_clocks db now1 now2 start end_
                  (find_allocations db (res_id r)) (PyInt 0) 0 0 t1 t2) as Hscan.
    destruct (report_scan db now1 _ _ _ _ _ _) as [[[h1 v1] t1']|x];
      destruct (report_scan db now2 _ _ _ _ _ _) as [[[h2 v2] t2']|y];
      simpl; try contradiction; try exact Hscan.
    destruct Hscan as [<- Hv].
    specialize (IH (rd1 ++ [(res_name r, h1, v1)]) (rd2 ++ [(res_name r, h1, v2)])
                  t1' t2').
    destruct (report_rows db now1 _ _ rs _ _) as [[o1 t1'']|x];
      destruct (report_rows db now2 _ _ rs _ _) as [[o2 t2'']|y];
      try exact IH.
    destruct IH as [Hhide Hsame]. split.
    + intros Hrd. apply Hhide. rewrite !map_app. simpl. f_equal. exact Hrd.
    + intros Hagree ->. apply (Hsame Hagree).
      rewrite Hv; [reflexivity| |reflexivity].
      intros a ev k k' Hin. apply find_allocations_In in Hin.
      apply Hagree. tauto.
Qed.

(** C7. Report purity and repetition: [report] returns the store it was
    given; a second call on that store returns the same resource names
    and booked hours, or the same error, whatever the two clocks read;
    the whole output, [upcoming] counts included, is the same when no
    start of an allocated event separates the readings of the clocks. *)
Theorem report_pure_and_repeatable (now1 now2 : Clock) (req : Request ReportForm)
    (db : Store) :
  fst (report now1 req db) = db /\
  fst (report now2 req (fst (report now1 req db))) = db /\
  hide_upcoming (snd (report now1 req db)) =
    hide_upcoming (snd (report now2 req (fst (report now1 req db)))) /\
  (clocks_agree db now1 now2 ->
   snd (report now1 req db) = snd (report now2 req (fst (report now1 req db)))).
Proof.
  rewrite !report_store_unchanged.
  split; [reflexivity|]. split; [reflexivity|].
  unfold report.
  destruct (method req); [split; reflexivity|].
  destruct (form_window_start (form req)) as [start|]; [|split; reflexivity].
  destruct (form_window_end (form req)) as [end_|]; [|split; reflexivity].
  simpl.
  pose proof (report_rows_clocks db now1 now2 start end_ (resources_col db)
                [] [] 0%nat 0%nat) as Hrows.
  destruct (report_rows db now1 _ _ _ _ _) as [[o1 t1]|x];
    destruct (report_rows db now2 _ _ _ _ _) as [[o2 t2]|y];
    simpl; try contradiction.
  - destruct Hrows as [Hhide Hsame]. split.
    + now rewrite Hhide.
    + intros Hagree. now rewrite (Hsame Hagree eq_refl).
  - subst. split; reflexivity.
Qed.

Lemma report_pure_and_repeatable_witness :
  clocks_agree booked_store (clock_at (at_time 0 9 0)) (clock_at (at_time 0 9 30)) /\
  snd (report (clock_at (at_time 0 9 0))
         (window (at_time 0 0 0) (at_time 1 0 0)) booked_store) =
  snd (report (clock_at (at_time 0 9 30))
         (window (at_time 0 0 0) (at_time 1 0 0))
         (fst (report (clock_at (at_time 0 9 0))
                 (window (at_time 0 0 0) (at_time 1 0 0)) booked_store))).
Proof.
  assert (H : clocks_agree booked_store
                (clock_at (at_time 0 9 0)) (clock_at (at_time 0 9 30))).
  { intros a ev k k' [<-|[]] Hev. vm_compute in Hev. injection Hev as <-.
    reflexivity. }
  split; [exact H|].
  exact (proj2 (proj2 (proj2 (report_pure_and_repeatable
                                (clock_at (at_time 0 9 0)) (clock_at (at_time 0 9 30))
                                (window (at_time 0 0 0) (at_time 1 0 0))
                                booked_store))) H).
Defined.

Lemma report_upcoming_counterexample :
  fst (report (clock_at (at_time 0 9 0))
         (window (at_time 0 0 0) (at_time 1 0 0)) booked_store) = booked_store /\
  snd (report (clock_at (at_time 0 9 0))
         (window (at_time 0 0 0) (at_time 1 0 0)) booked_store) =
    render_report [("Room 1", PyFloat 1, 1)] /\
  snd (report (clock_at (at_time 0 10 30))
         (window (at_time 0 0 0) (at_time 1 0 0))
         (fst (report (clock_at (at_time 0 9 0))
                 (window (at_time 0 0 0) (at_time 1 0 0)) booked_store))) =
    render_report [("Room 1", PyFloat 1, 0)].
Proof. repeat split; vm_compute; reflexivity. Qed.

(** ** Booked hours *)

(** [timedelta.seconds] leaves out the whole days of the duration. *)
Lemma seconds_drops_days (d days : Z) :
  seconds (d + days * (86400 * 1000000)) = seconds d.
Proof.
  unfold seconds.
  replace (d + days * (86400 * 1000000))
    with (d + (days * 86400) * 1000000) by ring.
  rewrite Z.div_add by discriminate.
  now rewrite Z.mod_add by discriminate.
Qed.

(** For an event shorter than a day it is the duration in whole seconds. *)
Lemma seconds_short (d : Z) :
  (0 <= d < 86400 * 1000000) -> seconds d = total_whole_seconds d.
Proof.
  intros Hd. unfold seconds, total_whole_seconds.
  apply Z.mod_small. split.
  - apply Z.div_pos; lia.
  - apply Z.div_lt_upper_bound; lia.
Qed.

(** For an event of a day or more it is less than the duration. *)
Lemma seconds_long (d : Z) :
  86400 * 1000000 <= d -> seconds d < total_whole_seconds d.
Proof.
  intros Hd. unfold seconds, total_whole_seconds.
  assert (86400 <= d / 1000000) by (apply Z.div_le_lower_bound; lia).
  assert (0 <= (d / 1000000) mod 86400 < 86400) by (apply Z.mod_pos_bound; lia).
  lia.
Qed.

(** The spec's example: events of 1.5 h and 1 h on one resource. *)
Example report_example_hours :
  snd (report (clock_at (at_time 1 0 0))
         (window (at_time 0 8 0) (at_time 0 12 0)) report_store) =
    render_report [("R", PyFloat 1.5%float, 0)] /\
  snd (report (clock_at (at_time 1 0 0))
         (window (at_time 0 0 0) (at_time 0 23 59)) report_store) =
    render_report [("R", PyFloat 2.5%float, 0)].
Proof. split; vm_compute; reflexivity. Qed.

(** C4. Booked hours: for the event of 25 hours allocated to "Hall" and a
    window that contains it, [report] gives 1.0 booked hour, the
    [seconds] component of the duration over 3600, where the event's full
    duration in hours is 25.0. *)
Theorem report_hours_drop_whole_days :
  report (clock_at (at_time 2 0 0))
    (window (at_time 0 0 0) (at_time 2 0 0)) overnight_store =
    (overnight_store, render_report [("Hall", PyFloat 1%float, 0)]) /\
  find_one_event overnight_store 0%N =
    Some (mkEvent 0%N "Retreat" (at_time 0 22 0) (at_time 1 23 0) "") /\
  (at_time 1 23 0 - at_time 0 22 0 = 25 * 3600 * 1000000) /\
  seconds (at_time 1 23 0 - at_time 0 22 0) = 3600 /\
  truediv (total_whole_seconds (at_time 1 23 0 - at_time 0 22 0)) 3600 = 25%float /\
  PyFloat 1%float <> PyFloat 25%float.
Proof.
  repeat split; try (vm_compute; reflexivity).
  intros H.
  apply (f_equal (fun h => match h with
                           | PyFloat f => PrimFloat.eqb f 1%float
                           | PyInt _ => false
                           end)) in H.
  vm_compute in H. discriminate.
Qed.

(** * The application as a whole *)

(** ** What a request can do to the store *)

(** A request leaves the store as it was, or appends one document: an
    event made from two comparable times of which the first is the
    earlier, a resource, or an allocation whose event was fetched and
    passed the scan. *)
Lemma serve_cases (r : RouteRequest) (db : Store) :
  fst (serve r db) = db \/
  (exists title start end_ description,
     comparable start end_ = true /\
     utc_instant start < utc_instant end_ /\
     fst (serve r db) = insert_event db title start end_ description) \/
  (exists name type_, fst (serve r db) = insert_resource db name type_) \/
  (exists oid rid ev,
     find_one_event db oid = Some ev /\
     has_conflict db rid (ev_start ev) (ev_end ev) = Ok false /\
     fst (serve r db) = insert_allocation db (ev_id ev) rid).
Proof.
  destruct r as [req|req|req|now req]; simpl;
    unfold events_route, resources_route, allocate_route, report_route,
      login_required;
    (destruct (session_user req); [|now left]).
  - destruct (events_cases req db) as [H|(start & end_ & Hc & Hlt & H)];
      [now left|].
    right. left.
    exists (form_title (form req)), start, end_, (form_desc (form req)). auto.
  - unfold resources. destruct (method req); [now left|].
    right. right. left. now exists (form_name (form req)), (form_type (form req)).
  - destruct (allocate_cases req db) as [H|(oid & rid & ev & Hfind & Hc & H)];
      [now left|].
    right. right. right. exists oid, rid, ev. rewrite H. auto.
  - left. apply report_store_unchanged.
Qed.

(** A property of stores that every request keeps holds after every run. *)
Lemma run_invariant (P : Store -> Prop) :
  (forall r db, P db -> P (fst (serve r db))) ->
  forall rs db, P db -> P (fst (run rs db)).
Proof.
  intros Hstep rs. induction rs as [|r rs IH]; intros db HP; simpl; [exact HP|].
  apply IH, Hstep, HP.
Qed.

Lemma find_one_event_insert_event (db : Store) (title description : string)
    (start end_ : iso_datetime) (oid : ObjectId) (ev : Event) :
  find_one_event db oid = Some ev ->
  find_one_event (insert_event db title start end_ description) oid = Some ev.
Proof.
  unfold find_one_event. simpl. apply find_app_some.
Qed.

Lemma serve_keeps_ordered_resolved (r : RouteRequest) (db : Store) :
  events_ordered db /\ all_allocations_resolve db ->
  events_ordered (fst (serve r db)) /\ all_allocations_resolve (fst (serve r db)).
Proof.
  intros [Hv Hr].
  destruct (serve_cases r db)
    as [->|[(t & s & e & d & _ & Hlt & ->)|[(n & ty & ->)|(oid & rid & ev & Hf & _ & ->)]]].
  - now split.
  - split.
    + unfold events_ordered. simpl. apply Forall_app. split; [exact Hv|].
      repeat constructor. simpl. apply bson_datetime_monotone. lia.
    + unfold all_allocations_resolve in *. simpl.
      eapply Forall_impl; [|exact Hr]. intros a. apply resolves_insert_event.
  - now split.
  - split; [exact Hv|].
    unfold all_allocations_resolve. simpl. apply Forall_app. split; [exact Hr|].
    repeat constructor. unfold resolves. simpl.
    rewrite find_one_event_insert_allocation.
    destruct (find_one_event_id _ _ _ Hf) as [-> _]. congruence.
Qed.

Lemma no_overlap_insert_event (db : Store) (title description : string)
    (start end_ : iso_datetime) :
  all_allocations_resolve db ->
  no_overlap db ->
  no_overlap (insert_event db title start end_ description).
Proof.
  intros Hres Hinv i j a b ea eb Hij Hi Hj Hsame Hea Heb.
  simpl in Hi, Hj.
  unfold all_allocations_resolve in Hres. rewrite Forall_forall in Hres.
  pose proof (Hres a (nth_error_In _ _ Hi)) as Ha.
  pose proof (Hres b (nth_error_In _ _ Hj)) as Hb.
  unfold resolves in Ha, Hb.
  destruct (find_one_event db (al_event_id a)) as [ea'|] eqn:Hea'; [|now elim Ha].
  destruct (find_one_event db (al_event_id b)) as [eb'|] eqn:Heb'; [|now elim Hb].
  rewrite (find_one_event_insert_event _ _ _ _ _ _ _ Hea') in Hea.
  rewrite (find_one_event_insert_event _ _ _ _ _ _ _ Heb') in Heb.
  injection Hea as <-. injection Heb as <-.
  now apply (Hinv i j a b ea' eb').
Qed.

Lemma serve_keeps_no_overlap (r : RouteRequest) (db : Store) :
  all_allocations_resolve db /\ no_overlap db ->
  all_allocations_resolve (fst (serve r db)) /\ no_overlap (fst (serve r db)).
Proof.
  intros [Hr Hinv].
  destruct (serve_cases r db)
    as [->|[(t & s & e & d & _ & _ & ->)|[(n & ty & ->)|(oid & rid & ev & Hf & Hc & ->)]]].
  - now split.
  - split.
    + unfold all_allocations_resolve in *. simpl.
      eapply Forall_impl; [|exact Hr]. intros a. apply resolves_insert_event.
    + now apply no_overlap_insert_event.
  - now split.
  - split.
    + unfold all_allocations_resolve. simpl. apply Forall_app. split; [exact Hr|].
      repeat constructor. unfold resolves. simpl.
      rewrite find_one_event_insert_allocation.
      destruct (find_one_event_id _ _ _ Hf) as [-> _]. congruence.
    + now apply no_overlap_insert_allocation with (oid := oid).
Qed.

(** X1. No double booking: from a store in which the allocations
    reference stored events and no two allocations of one resource have
    overlapping events, the same holds after any run of requests to the
    four routes. *)
Theorem run_keeps_no_overlap (rs : list RouteRequest) (db : Store) :
  all_allocations_resolve db ->
  no_overlap db ->
  all_allocations_resolve (fst (run rs db)) /\ no_overlap (fst (run rs db)).
Proof.
  intros Hr Hinv.
  apply (run_invariant (fun db => all_allocations_resolve db /\ no_overlap db));
    [apply serve_keeps_no_overlap|auto].
Qed.

Lemma run_keeps_no_overlap_witness :
  all_allocations_resolve empty_store /\
  no_overlap empty_store /\
  no_overlap (fst (run busy_day empty_store)) /\
  allocations_col (fst (run busy_day empty_store)) =
    [mkAllocation 4%N 0%N 3%N; mkAllocation 5%N 1%N 3%N].
Proof.
  assert (Hr : all_allocations_resolve empty_store) by constructor.
  assert (Hn : no_overlap empty_store) by (apply no_overlap_short; simpl; lia).
  split; [exact Hr|]. split; [exact Hn|].
  split; [exact (proj2 (run_keeps_no_overlap busy_day empty_store Hr Hn))|].
  vm_compute. reflexivity.
Defined.

(** X2. Referential integrity: from a store in which no event ends
    before it starts and the allocations reference stored events, after
    any run every allocation references, by its event id, a stored event
    that does not end before it starts. *)
Theorem run_keeps_references (rs : list RouteRequest) (db : Store) :
  events_ordered db ->
  all_allocations_resolve db ->
  forall a, In a (allocations_col (fst (run rs db))) ->
  exists ev,
    find_one_event (fst (run rs db)) (al_event_id a) = Some ev /\
    ev_id ev = al_event_id a /\
    ev_start ev <= ev_end ev.
Proof.
  intros Hv Hr.
  destruct (run_invariant (fun db => events_ordered db /\ all_allocations_resolve db)
              serve_keeps_ordered_resolved rs db (conj Hv Hr)) as [Hv' Hr'].
  unfold events_ordered, all_allocations_resolve in Hv', Hr'.
  rewrite Forall_forall in Hv', Hr'.
  intros a Hin. specialize (Hr' a Hin). unfold resolves in Hr'.
  destruct (find_one_event (fst (run rs db)) (al_event_id a)) as [ev|] eqn:Hev;
    [|now elim Hr'].
  destruct (find_one_event_id _ _ _ Hev) as [Hid Hin_ev].
  exists ev. auto.
Qed.

Lemma run_keeps_references_witness :
  exists ev,
    find_one_event blink_store 0%N = Some ev /\
    ev_id ev = 0%N /\ ev_start ev <= ev_end ev.
Proof.
  apply (run_keeps_references blink_day empty_store
           (Forall_nil _) (Forall_nil _) (mkAllocation 4%N 0%N 2%N)).
  fold blink_store. rewrite blink_store_contents. simpl. auto.
Defined.

Lemma no_duplicate_binding_insert_event (db : Store) (title description : string)
    (start end_ : iso_datetime) :
  all_allocations_resolve db ->
  no_duplicate_binding db ->
  no_duplicate_binding (insert_event db title start end_ description).
Proof.
  intros Hres Hinv i j a b ev Hij Hi Hj Hev Hrid He.
  simpl in Hi, Hj.
  unfold all_allocations_resolve in Hres. rewrite Forall_forall in Hres.
  pose proof (Hres a (nth_error_In _ _ Hi)) as Ha. unfold resolves in Ha.
  destruct (find_one_event db (al_event_id a)) as [ev'|] eqn:Hev'; [|now elim Ha].
  rewrite (find_one_event_insert_event _ _ _ _ _ _ _ Hev') in He.
  injection He as <-.
  now apply (Hinv i j a b ev').
Qed.

Lemma serve_keeps_bindings_distinct (r : RouteRequest) (db : Store) :
  all_allocations_resolve db /\ no_duplicate_binding db ->
  all_allocations_resolve (fst (serve r db)) /\ no_duplicate_binding (fst (serve r db)).
Proof.
  intros [Hr Hnd].
  destruct (serve_cases r db)
    as [->|[(t & s & e & d & _ & _ & ->)|[(n & ty & ->)|(oid & rid & ev & Hf & Hc & ->)]]].
  - now split.
  - split.
    + unfold all_allocations_resolve in *. simpl.
      eapply Forall_impl; [|exact Hr]. intros a. apply resolves_insert_event.
    + now apply no_duplicate_binding_insert_event.
  - now split.
  - split.
    + unfold all_allocations_resolve. simpl. apply Forall_app. split; [exact Hr|].
      repeat constructor. unfold resolves. simpl.
      rewrite find_one_event_insert_allocation.
      destruct (find_one_event_id _ _ _ Hf) as [-> _]. congruence.
    + now apply no_duplicate_binding_insert_allocation with (oid := oid).
Qed.

(** X3. Distinct bindings of lasting events: from a store whose
    allocations reference stored events and in which no two allocations
    bind the same event with [start < end] to the same resource, no run
    of requests produces two such allocations. *)
Theorem run_keeps_bindings_distinct (rs : list RouteRequest) (db : Store) :
  all_allocations_resolve db ->
  no_duplicate_binding db ->
  all_allocations_resolve (fst (run rs db)) /\ no_duplicate_binding (fst (run rs db)).
Proof.
  intros Hr Hnd.
  apply (run_invariant (fun db => all_allocations_resolve db /\ no_duplicate_binding db)
           serve_keeps_bindings_distinct rs db (conj Hr Hnd)).
Qed.

Lemma run_keeps_bindings_distinct_witness :
  no_duplicate_binding blink_store /\
  allocations_col blink_store =
    [mkAllocation 3%N 0%N 2%N; mkAllocation 4%N 0%N 2%N; mkAllocation 5%N 1%N 2%N].
Proof.
  split; [|now rewrite blink_store_contents].
  apply (run_keeps_bindings_distinct blink_day empty_store (Forall_nil _)).
  intros i j a b ev _ Hi. destruct i; discriminate.
Defined.

(** X4. One document at most: a request to one of the four routes leaves
    the store as it was, or appends exactly one document to one collection
    and leaves the other two as they were: an event that does not end
    before it starts, a resource, or an allocation of an event that is in
    the store. *)
Theorem serve_appends_one_document (r : RouteRequest) (db : Store) :
  fst (serve r db) = db \/
  (exists ev,
     events_col (fst (serve r db)) = events_col db ++ [ev] /\
     ev_start ev <= ev_end ev /\
     resources_col (fst (serve r db)) = resources_col db /\
     allocations_col (fst (serve r db)) = allocations_col db) \/
  (exists res,
     resources_col (fst (serve r db)) = resources_col db ++ [res] /\
     events_col (fst (serve r db)) = events_col db /\
     allocations_col (fst (serve r db)) = allocations_col db) \/
  (exists a ev,
     allocations_col (fst (serve r db)) = allocations_col db ++ [a] /\
     In ev (events_col db) /\ al_event_id a = ev_id ev /\
     events_col (fst (serve r db)) = events_col db /\
     resources_col (fst (serve r db)) = resources_col db).
Proof.
  destruct (serve_cases r db)
    as [H|[(t & s & e & d & _ & Hlt & H)|[(n & ty & H)|(oid & rid & ev & Hf & _ & H)]]];
    rewrite H.
  - now left.
  - right. left.
    exists (mkEvent (next_oid db) t (bson_datetime s) (bson_datetime e) d). simpl.
    repeat split. apply bson_datetime_monotone. lia.
  - right. right. left. exists (mkResource (next_oid db) n ty). simpl. auto.
  - right. right. right.
    exists (mkAllocation (next_oid db) (ev_id ev) rid), ev. simpl.
    destruct (find_one_event_id _ _ _ Hf) as [_ Hin]. auto.
Qed.

Lemma serve_never_forgets (r : RouteRequest) (db : Store) :
  (forall oid ev, find_one_event db oid = Some ev ->
                  find_one_event (fst (serve r db)) oid = Some ev) /\
  (forall res, In res (resources_col db) -> In res (resources_col (fst (serve r db)))) /\
  (forall a, In a (allocations_col db) -> In a (allocations_col (fst (serve r db)))).
Proof.
  destruct (serve_cases r db)
    as [->|[(t & s & e & d & _ & _ & ->)|[(n & ty & ->)|(oid & rid & ev & _ & _ & ->)]]];
    simpl; repeat split; auto; intros.
  - now apply find_one_event_insert_event.
  - apply in_or_app. now left.
  - apply in_or_app. now left.
Qed.

(** X5. Nothing is forgotten: after any run, an event id that resolved
    to an event still resolves to the same event, and every resource and
    every allocation of the store is still in it: no route updates or
    deletes a document. *)
Theorem run_never_forgets (rs : list RouteRequest) (db : Store) :
  (forall oid ev, find_one_event db oid = Some ev ->
                  find_one_event (fst (run rs db)) oid = Some ev) /\
  (forall res, In res (resources_col db) -> In res (resources_col (fst (run rs db)))) /\
  (forall a, In a (allocations_col db) -> In a (allocations_col (fst (run rs db)))).
Proof.
  revert db. induction rs as [|r rs IH]; intros db; simpl; [now repeat split|].
  destruct (serve_never_forgets r db) as (He & Hr & Ha).
  destruct (IH (fst (serve r db))) as (He' & Hr' & Ha').
  repeat split; auto.
Qed.

Lemma run_never_forgets_witness :
  find_one_event (fst (run busy_day booked_store)) 0%N =
    Some (mkEvent 0%N "Standup" (at_time 0 10 0) (at_time 0 11 0) "") /\
  In (mkAllocation 4%N 0%N 3%N) (allocations_col (fst (run busy_day booked_store))).
Proof.
  split.
  - apply (proj1 (run_never_forgets busy_day booked_store)). reflexivity.
  - apply (proj2 (proj2 (run_never_forgets busy_day booked_store))).
    simpl. auto.
Defined.

(** X6. Anonymous requests: a run of requests none of which carries a
    session user leaves the store as it was and answers each request with
    the redirect to the login page, whatever the forms hold. *)
Theorem anonymous_run_changes_nothing (rs : list RouteRequest) (db : Store) :
  Forall anonymous rs ->
  run rs db = (db, map (fun _ => redirect "/login") rs).
Proof.
  induction 1 as [|r rs Hr _ IH]; simpl; [reflexivity|].
  assert (Hs : serve r db = (db, redirect "/login")).
  { destruct r as [req|req|req|now req]; simpl in *;
      unfold events_route, resources_route, allocate_route, report_route,
        login_required; now rewrite Hr. }
  rewrite Hs. simpl. now rewrite IH.
Qed.

Lemma anonymous_run_changes_nothing_witness :
  run [to_events (mkRequest None POST (mkEventForm "Standup" None None ""));
       to_allocate (mkRequest None POST (mkAllocateForm (Some 0%N) (Some 3%N)))]
      booked_store =
    (booked_store, [redirect "/login"; redirect "/login"]).
Proof.
  apply (anonymous_run_changes_nothing
           [to_events (mkRequest None POST (mkEventForm "Standup" None None ""));
            to_allocate (mkRequest None POST (mkAllocateForm (Some 0%N) (Some 3%N)))]
           booked_store).
  repeat constructor.
Defined.

(** ** Errors and order in [allocate] *)

(** X7. Server errors of [allocate]: for a request whose form carries
    both fields, in a store whose allocations reference stored events,
    [allocate] ends in one of the exceptions [exn] exactly for a POST
    whose event id is malformed (InvalidId), whose
    event id is well formed and whose resource id is malformed (InvalidId,
    whether the event exists or not), or whose ids are well formed and
    whose event is not in the store (TypeError). *)
Theorem allocate_server_errors (req : Request AllocateForm) (db : Store) (e : exn) :
  all_allocations_resolve db ->
  (snd (allocate req db) = server_error e <->
   method req = POST /\
   ((form_event (form req) = None /\ e = InvalidId) \/
    (exists oid, form_event (form req) = Some oid /\
                 form_resource (form req) = None /\ e = InvalidId) \/
    (exists oid rid, form_event (form req) = Some oid /\
                     form_resource (form req) = Some rid /\
                     find_one_event db oid = None /\ e = TypeError))).
Proof.
  intros Hres. unfold allocate.
  destruct (method req); simpl.
  - split; [discriminate|]. now intros [? _].
  - destruct (form_event (form req)) as [oid|]; simpl.
    + destruct (form_resource (form req)) as [rid|]; simpl.
      * destruct (find_one_event db oid) as [ev|] eqn:Hfind; simpl.
        -- destruct (scan_resolved_total db (ev_start ev) (ev_end ev)
                       (find_allocations db rid)
                       (all_resolve_for_resource db rid Hres)) as [answer Hc].
           unfold has_conflict. rewrite Hc. simpl.
           split.
           ++ destruct answer; discriminate.
           ++ intros [_ [[? _]|[(o & _ & ? & _)|(o & r & Ho & _ & Hnone & _)]]];
                try discriminate.
              injection Ho as <-. congruence.
        -- split.
           ++ intros H. injection H as <-. split; [reflexivity|].
              right. right. exists oid, rid. auto.
           ++ intros [_ [[? _]|[(o & _ & ? & _)|(o & r & _ & _ & _ & ->)]]];
                try discriminate. reflexivity.
      * split.
        -- intros H. injection H as <-. split; [reflexivity|].
           right. left. exists oid. auto.
        -- intros [_ [[? _]|[(o & _ & _ & ->)|(o & r & _ & ? & _)]]];
             try discriminate. reflexivity.
    + split.
      * intros H. injection H as <-. split; [reflexivity|]. now left.
      * intros [_ [[_ ->]|[(o & ? & _)|(o & r & ? & _)]]];
          try discriminate. reflexivity.
Qed.

Lemma allocate_server_errors_witness :
  all_allocations_resolve booked_store /\
  snd (allocate (post (mkAllocateForm (Some 9%N) None)) booked_store) =
    server_error InvalidId.
Proof.
  assert (Hr : all_allocations_resolve booked_store)
    by (repeat constructor; vm_compute; discriminate).
  split; [exact Hr|].
  apply (allocate_server_errors (post (mkAllocateForm (Some 9%N) None))
           booked_store InvalidId Hr).
  split; [reflexivity|]. right. left. exists 9%N. auto.
Defined.

Lemma has_conflict_scan_insert_allocation (db : Store) (eid rid : ObjectId)
    (l : list Allocation) (start end_ : datetime) :
  has_conflict_scan (insert_allocation db eid rid) l start end_ =
  has_conflict_scan db l start end_.
Proof.
  induction l as [|a l IH]; simpl; [reflexivity|].
  rewrite find_one_event_insert_allocation.
  destruct (find_one_event db (al_event_id a)); [|reflexivity].
  now rewrite IH.
Qed.

Lemma find_allocations_insert_allocation (db : Store) (eid rid rid' : ObjectId) :
  find_allocations (insert_allocation db eid rid) rid' =
  find_allocations db rid' ++
  (if N.eqb rid rid' then [mkAllocation (next_oid db) eid rid] else []).
Proof.
  unfold find_allocations. simpl. now rewrite filter_app.
Qed.

(** X8. First come, first served: when two events of the store overlap
    and the resource is free for the first, the request for the first is
    granted and appends its allocation, and the request for the second,
    served next, gets the conflict message and changes nothing. *)
Theorem first_come_first_served (reqa reqb : Request AllocateForm) (db : Store)
    (ida idb rid : ObjectId) (ea eb : Event) :
  method reqa = POST -> form_event (form reqa) = Some ida ->
  form_resource (form reqa) = Some rid ->
  method reqb = POST -> form_event (form reqb) = Some idb ->
  form_resource (form reqb) = Some rid ->
  find_one_event db ida = Some ea ->
  find_one_event db idb = Some eb ->
  overlaps (ev_start ea) (ev_end ea) (ev_start eb) (ev_end eb) ->
  has_conflict db rid (ev_start ea) (ev_end ea) = Ok false ->
  allocate reqa db =
    (insert_allocation db (ev_id ea) rid,
     render_allocate (events_col db) (resources_col db)) /\
  allocate reqb (insert_allocation db (ev_id ea) rid) =
    (insert_allocation db (ev_id ea) rid,
     body "Conflict: Resource already booked").
Proof.
  intros Hma Hea Hra Hmb Heb Hrb Hfa Hfb [Hov1 Hov2] Hc.
  split.
  - rewrite (allocate_post reqa db ida rid ea Hma Hea Hra Hfa). now rewrite Hc.
  - destruct (find_one_event_id _ _ _ Hfa) as [Hid _].
    apply (allocate_overlap_conflict reqb _ idb rid eb
             (mkAllocation (next_oid db) (ev_id ea) rid) ea); try assumption.
    + unfold allocations_resolve.
      rewrite find_allocations_insert_allocation, N.eqb_refl.
      apply Forall_app. split.
      * unfold has_conflict in Hc. rewrite scan_false_apart in Hc.
        eapply Forall_impl; [|exact Hc].
        intros a (ev & Hev & _). unfold resolves.
        rewrite find_one_event_insert_allocation. congruence.
      * repeat constructor. unfold resolves. simpl.
        rewrite find_one_event_insert_allocation. congruence.
    + simpl. apply in_or_app. right. simpl. auto.
    + reflexivity.
    + simpl. rewrite find_one_event_insert_allocation. congruence.
    + split; assumption.
Qed.

Lemma first_come_first_served_witness :
  allocate (book 2%N 3%N) base_store =
    (insert_allocation base_store 2%N 3%N,
     render_allocate (events_col base_store) (resources_col base_store)) /\
  allocate (book 0%N 3%N) (insert_allocation base_store 2%N 3%N) =
    (insert_allocation base_store 2%N 3%N, body "Conflict: Resource already booked").
Proof.
  apply (first_come_first_served (book 2%N 3%N) (book 0%N 3%N) base_store
           2%N 0%N 3%N
           (mkEvent 2%N "Call" (at_time 0 10 30) (at_time 0 10 45) "")
           (mkEvent 0%N "Standup" (at_time 0 10 0) (at_time 0 11 0) ""));
    try reflexivity.
  split; vm_compute; reflexivity.
Defined.

(** X9. Resources are booked independently: an allocation to one
    resource changes neither what [has_conflict] returns for another
    resource nor the response of [allocate] to a request for another
    resource. *)
Theorem allocation_leaves_other_resources (db : Store) (eid rid rid' : ObjectId) :
  rid <> rid' ->
  (forall start end_,
     has_conflict (insert_allocation db eid rid) rid' start end_ =
     has_conflict db rid' start end_) /\
  (forall req,
     form_resource (form req) = Some rid' ->
     snd (allocate req (insert_allocation db eid rid)) = snd (allocate req db)).
Proof.
  intros Hne.
  assert (Hc : forall start end_,
             has_conflict (insert_allocation db eid rid) rid' start end_ =
             has_conflict db rid' start end_).
  { intros start end_. unfold has_conflict.
    rewrite find_allocations_insert_allocation, has_conflict_scan_insert_allocation.
    apply N.eqb_neq in Hne. rewrite Hne. now rewrite app_nil_r. }
  split; [exact Hc|].
  intros req Hr. unfold allocate. rewrite Hr.
  destruct (method req); [reflexivity|].
  destruct (form_event (form req)) as [oid|]; [|reflexivity].
  simpl. rewrite find_one_event_insert_allocation.
  destruct (find_one_event db oid) as [ev|]; [|reflexivity].
  rewrite Hc.
  destruct (has_conflict db rid' (ev_start ev) (ev_end ev)) as [[|]|x]; reflexivity.
Qed.

Lemma allocation_leaves_other_resources_witness :
  snd (allocate (book 0%N 7%N) booked_store) = snd (allocate (book 0%N 7%N) base_store) /\
  snd (allocate (book 0%N 7%N) booked_store) =
    render_allocate (events_col base_store) (resources_col base_store).
Proof.
  split; [|reflexivity].
  apply (proj2 (allocation_leaves_other_resources base_store 0%N 3%N 7%N
                  ltac:(discriminate)) (book 0%N 7%N)).
  reflexivity.
Defined.

(** X10. The order of the allocations does not matter: two stores with the
    same events whose allocations are the same up to their order, all
    referencing stored events, get the same answer from [has_conflict]. *)
Theorem has_conflict_order_independent (db db' : Store) (rid : ObjectId)
    (start end_ : datetime) :
  events_col db' = events_col db ->
  Permutation (allocations_col db) (allocations_col db') ->
  all_allocations_resolve db ->
  has_conflict db' rid start end_ = has_conflict db rid start end_.
Proof.
  intros Hev Hperm Hres.
  assert (Hfind : forall oid, find_one_event db' oid = find_one_event db oid)
    by (intros oid; unfold find_one_event; now rewrite Hev).
  assert (Hres' : all_allocations_resolve db').
  { unfold all_allocations_resolve in *.
    apply (Permutation_Forall Hperm).
    eapply Forall_impl; [|exact Hres].
    intros a. unfold resolves. now rewrite Hfind. }
  pose proof (all_resolve_for_resource db rid Hres) as Hr.
  pose proof (all_resolve_for_resource db' rid Hres') as Hr'.
  destruct (scan_resolved_total db start end_ _ Hr) as [b Hb].
  destruct (scan_resolved_total db' start end_ _ Hr') as [b' Hb'].
  fold (has_conflict db rid start end_) in Hb.
  fold (has_conflict db' rid start end_) in Hb'.
  rewrite Hb, Hb'. f_equal.
  destruct b, b'; try reflexivity.
  - apply (has_conflict_true_iff db rid start end_ Hr) in Hb.
    destruct Hb as (a & ev & Hin & Ha & Hf & Hov).
    assert (H : has_conflict db' rid start end_ = Ok true).
    { apply (has_conflict_true_iff db' rid start end_ Hr').
      exists a, ev. rewrite Hfind.
      split; [exact (Permutation_in a Hperm Hin)|auto]. }
    congruence.
  - apply (has_conflict_true_iff db' rid start end_ Hr') in Hb'.
    destruct Hb' as (a & ev & Hin & Ha & Hf & Hov).
    assert (H : has_conflict db rid start end_ = Ok true).
    { apply (has_conflict_true_iff db rid start end_ Hr).
      exists a, ev. rewrite <- Hfind.
      split; [exact (Permutation_in a (Permutation_sym Hperm) Hin)|auto]. }
    congruence.
Qed.

Lemma has_conflict_order_independent_witness :
  has_conflict (reversed report_store) 2%N (at_time 0 10 0) (at_time 0 11 0) =
  has_conflict report_store 2%N (at_time 0 10 0) (at_time 0 11 0) /\
  has_conflict report_store 2%N (at_time 0 10 0) (at_time 0 11 0) = Ok true.
Proof.
  split; [|reflexivity].
  apply (has_conflict_order_independent report_store (reversed report_store)).
  - reflexivity.
  - apply Permutation_rev.
  - repeat constructor; vm_compute; discriminate.
Defined.

(** ** The rows of the report *)

Lemma report_post (now : Clock) (req : Request ReportForm) (db : Store)
    (start end_ : iso_datetime) :
  method req = POST ->
  form_window_start (form req) = Some start ->
  form_window_end (form req) = Some end_ ->
  report now req db =
    match report_rows db now start end_ (resources_col db) [] 0%nat with
    | Ok out => (db, render_report (fst out))
    | Raise x => (db, server_error x)
    end.
Proof.
  intros Hm Hs He. unfold report. rewrite Hm, Hs, He. simpl.
  destruct (report_rows _ _ _ _ _ _ _); reflexivity.
Qed.

(** Against a naive window the stored events compare without error. *)
Lemma meets_window_naive (ev : Event) (start end_ : datetime) :
  meets_window ev (naive start) (naive end_) =
  Ok ((ev_end ev >? start) && (ev_start ev <? end_)).
Proof.
  unfold meets_window, datetime_gt, datetime_lt. simpl.
  fold (ev_end ev >? start). fold (ev_start ev <? end_).
  destruct (ev_end ev >? start); reflexivity.
Qed.

(** When the comparison with the window returns, it is [True] only for a
    naive window that the event meets. *)
Lemma meets_window_returns (ev : Event) (start end_ : iso_datetime) (b : bool) :
  meets_window ev start end_ = Ok b ->
  b = match start, end_ with
      | naive s, naive e => (ev_end ev >? s) && (ev_start ev <? e)
      | _, _ => false
      end.
Proof.
  destruct start as [s|s so], end_ as [e|e eo].
  - rewrite meets_window_naive. congruence.
  - unfold meets_window, datetime_gt, datetime_lt. simpl.
    destruct (ev_end ev ?= s); simpl; congruence.
  - discriminate.
  - discriminate.
Qed.

Section ReportLoops.

Variable db : Store.
Variable now : Clock.
Variables start end_ : iso_datetime.

(** The inner loop adds the hours of the events that meet the window, in
    the order of the cursor. *)
Lemma report_scan_hours (l : list Allocation) :
  forall hours upcoming tick h u t,
  report_scan db now start end_ l hours upcoming tick = Ok (h, u, t) ->
  h = add_hours hours
        (filter (fun ev => match start, end_ with
                           | naive s, naive e => (ev_end ev >? s) && (ev_start ev <? e)
                           | _, _ => false
                           end)
           (flat_map (fun a => match find_one_event db (al_event_id a) with
                               | Some ev => [ev]
                               | None => []
                               end) l)).
Proof.
  induction l as [|a l IH]; intros hours upcoming tick h u t; simpl.
  - intros H. now injection H as <- _ _.
  - destruct (find_one_event db (al_event_id a)) as [ev|]; [|discriminate].
    destruct (meets_window ev start end_) as [meets|x] eqn:Hm; simpl;
      [|discriminate].
    intros H. apply IH in H.
    rewrite <- (meets_window_returns ev start end_ meets Hm).
    destruct meets; exact H.
Qed.

(** Under a clock that stands at [t0], the inner loop counts the
    allocations whose event starts after [t0]. *)
Lemma report_scan_upcoming (t0 : datetime) (l : list Allocation) :
  (forall k, now k = t0) ->
  forall hours upcoming tick h u t,
  report_scan db now start end_ l hours upcoming tick = Ok (h, u, t) ->
  u = upcoming + Z.of_nat (List.length (filter (starts_after db t0) l)).
Proof.
  intros Hnow.
  induction l as [|a l IH]; intros hours upcoming tick h u t; simpl.
  - intros H. injection H as _ <- _. lia.
  - unfold starts_after at 1.
    destruct (find_one_event db (al_event_id a)) as [ev|]; [|discriminate].
    destruct (meets_window ev start end_) as [meets|x]; simpl; [|discriminate].
    intros H. apply IH in H. rewrite Hnow in H.
    destruct (ev_start ev >? t0); simpl; lia.
Qed.

(** The outer loop appends one row for each resource, made by the inner
    loop from the int [0] and the count [0]. *)
Lemma report_rows_shape (rs : list Resource) :
  forall rd tick out tick',
  report_rows db now start end_ rs rd tick = Ok (out, tick') ->
  exists rows,
    out = rd ++ rows /\
    Forall2 (fun r row =>
               fst (fst row) = res_name r /\
               exists t0 t1,
                 report_scan db now start end_ (find_allocations db (res_id r))
                   (PyInt 0) 0 t0 = Ok (snd (fst row), snd row, t1))
      rs rows.
Proof.
  induction rs as [|r rs IH]; intros rd tick out tick'; simpl.
  - intros H. injection H as <- _. exists []. now rewrite app_nil_r.
  - destruct (report_scan db now start end_ (find_allocations db (res_id r))
                (PyInt 0) 0 tick) as [[[h u] t]|x] eqn:Hscan; simpl; [|discriminate].
    intros H. destruct (IH _ _ _ _ H) as (rows & -> & Hrows).
    exists ((res_name r, h, u) :: rows). split.
    + now rewrite <- app_assoc.
    + constructor; [|exact Hrows]. simpl. eauto.
Qed.

End ReportLoops.

Lemma report_scan_total (db : Store) (now : Clock) (start end_ : datetime)
    (l : list Allocation) :
  Forall (resolves db) l ->
  forall hours upcoming tick,
  exists out,
    report_scan db now (naive start) (naive end_) l hours upcoming tick = Ok out.
Proof.
  induction 1 as [|a l Ha _ IH]; intros hours upcoming tick; simpl.
  - eauto.
  - unfold resolves in Ha.
    destruct (find_one_event db (al_event_id a)) as [ev|]; [|now elim Ha].
    rewrite meets_window_naive. simpl. apply IH.
Qed.

Lemma report_rows_total (db : Store) (now : Clock) (start end_ : datetime)
    (rs : list Resource) :
  all_allocations_resolve db ->
  forall rd tick,
  exists out,
    report_rows db now (naive start) (naive end_) rs rd tick = Ok out.
Proof.
  intros Hres.
  induction rs as [|r rs IH]; intros rd tick; simpl; [eauto|].
  destruct (report_scan_total db now start end_ (find_allocations db (res_id r))
              (all_resolve_for_resource db (res_id r) Hres) (PyInt 0) 0 tick)
    as [[[h u] t] ->].
  simpl. apply IH.
Qed.

(** X11. One row for each resource: in a store whose allocations
    reference stored events, a POST to [report] whose window parses to
    two naive times does not raise; it returns the store and one row for
    each resource, in the order of the collection, under the resource's
    name. *)
Theorem report_one_row_per_resource (now : Clock) (req : Request ReportForm)
    (db : Store) (start end_ : datetime) :
  all_allocations_resolve db ->
  method req = POST ->
  form_window_start (form req) = Some (naive start) ->
  form_window_end (form req) = Some (naive end_) ->
  exists rows,
    report now req db = (db, render_report rows) /\
    map (fun row => fst (fst row)) rows = map res_name (resources_col db).
Proof.
  intros Hres Hm Hs He.
  rewrite (report_post now req db (naive start) (naive end_) Hm Hs He).
  destruct (report_rows_total db now start end_ (resources_col db) Hres [] 0%nat)
    as [[out tick] Hout].
  rewrite Hout. simpl. exists out. split; [reflexivity|].
  destruct (report_rows_shape db now _ _ _ _ _ _ _ Hout) as (rows & -> & Hrows).
  simpl. clear Hout.
  induction Hrows as [|r row rs rows [Hname _] _ IH]; simpl; [reflexivity|].
  now rewrite Hname, IH.
Qed.

Lemma report_one_row_per_resource_witness :
  all_allocations_resolve report_store /\
  exists rows,
    report (clock_at (at_time 0 12 0)) (window (at_time 0 8 0) (at_time 0 12 0))
      report_store = (report_store, render_report rows) /\
    map (fun row => fst (fst row)) rows = ["R"].
Proof.
  assert (Hr : all_allocations_resolve report_store)
    by (repeat constructor; vm_compute; discriminate).
  split; [exact Hr|].
  apply (report_one_row_per_resource (clock_at (at_time 0 12 0))
           (window (at_time 0 8 0) (at_time 0 12 0)) report_store
           (at_time 0 8 0) (at_time 0 12 0) Hr); reflexivity.
Defined.

(** X12. Booked hours of a row: when [report] returns rows, the hours of
    each resource's row are the int [0] to which the [seconds] component
    of the duration over 3600 is added for each of the resource's
    allocations, in their order, whose event has [end > start of the
    window] and [start < end of the window], the window being two naive
    times; with no such event, and for a window with an aware bound, they
    are the int [0]. *)
Theorem report_hours_of_row (now : Clock) (req : Request ReportForm)
    (db db' : Store) (start end_ : iso_datetime) (rows : list ReportRow) :
  method req = POST ->
  form_window_start (form req) = Some start ->
  form_window_end (form req) = Some end_ ->
  report now req db = (db', render_report rows) ->
  Forall2 (fun r row =>
             snd (fst row) =
               add_hours (PyInt 0) (booked_events db start end_ (res_id r)) /\
             (booked_events db start end_ (res_id r) = [] ->
              snd (fst row) = PyInt 0))
    (resources_col db) rows.
Proof.
  intros Hm Hs He. rewrite (report_post now req db start end_ Hm Hs He).
  destruct (report_rows db now start end_ (resources_col db) [] 0%nat)
    as [[out tick]|x] eqn:Hout; [|discriminate].
  intros H. injection H as _ <-. simpl.
  destruct (report_rows_shape db now start end_ _ _ _ _ _ Hout) as (rows & -> & Hrows).
  simpl. eapply Forall2_impl; [|exact Hrows].
  intros r row [_ (t0 & t1 & Hscan)].
  apply report_scan_hours in Hscan.
  fold (booked_events db start end_ (res_id r)) in Hscan.
  split; [exact Hscan|].
  intros Hnil. now rewrite Hscan, Hnil.
Qed.

Lemma report_hours_of_row_witness :
  Forall2 (fun r row =>
             snd (fst row) =
               add_hours (PyInt 0)
                 (booked_events report_store (naive (at_time 0 8 0)) (naive (at_time 0 12 0)) (res_id r)) /\
             (booked_events report_store (naive (at_time 0 8 0)) (naive (at_time 0 12 0)) (res_id r) = [] ->
              snd (fst row) = PyInt 0))
    (resources_col report_store) [("R", PyFloat 1.5%float, 0)].
Proof.
  apply (report_hours_of_row (clock_at (at_time 1 0 0))
           (window (at_time 0 8 0) (at_time 0 12 0)) report_store report_store
           (naive (at_time 0 8 0)) (naive (at_time 0 12 0))); reflexivity.
Defined.

(** X13. Upcoming count of a row: when [report] returns rows under a
    clock that stands at [t0] while the request is served, the count of
    each resource's row is the number of the resource's allocations whose
    event starts after [t0], whatever the window. *)
Theorem report_upcoming_of_row (now : Clock) (t0 : datetime)
    (req : Request ReportForm) (db db' : Store) (start end_ : iso_datetime)
    (rows : list ReportRow) :
  (forall k, now k = t0) ->
  method req = POST ->
  form_window_start (form req) = Some start ->
  form_window_end (form req) = Some end_ ->
  report now req db = (db', render_report rows) ->
  Forall2 (fun r row =>
             snd row =
               Z.of_nat (List.length (filter (starts_after db t0)
                                        (find_allocations db (res_id r)))))
    (resources_col db) rows.
Proof.
  intros Hnow Hm Hs He. rewrite (report_post now req db start end_ Hm Hs He).
  destruct (report_rows db now start end_ (resources_col db) [] 0%nat)
    as [[out tick]|x] eqn:Hout; [|discriminate].
  intros H. injection H as _ <-. simpl.
  destruct (report_rows_shape db now start end_ _ _ _ _ _ Hout) as (rows & -> & Hrows).
  simpl. eapply Forall2_impl; [|exact Hrows].
  intros r row [_ (t1 & t2 & Hscan)].
  now apply (report_scan_upcoming db now start end_ t0 _ Hnow) in Hscan.
Qed.

Lemma report_upcoming_of_row_witness :
  Forall2 (fun r row =>
             snd row =
               Z.of_nat (List.length (filter (starts_after report_store (at_time 0 12 0))
                                        (find_allocations report_store (res_id r)))))
    (resources_col report_store) [("R", PyFloat 1.5%float, 1)].
Proof.
  apply (report_upcoming_of_row (clock_at (at_time 0 12 0)) (at_time 0 12 0)
           (window (at_time 0 8 0) (at_time 0 12 0)) report_store report_store
           (naive (at_time 0 8 0)) (naive (at_time 0 12 0))); reflexivity.
Defined.

(** ** Accounts *)

Lemma find_one_user_none (users_col : list User) (username : string) :
  find_one_user users_col username = None <->
  ~ In username (map user_username users_col).
Proof.
  unfold find_one_user. split.
  - intros Hnone Hin. apply in_map_iff in Hin. destruct Hin as (u & Hu & Hin).
    pose proof (find_none _ _ Hnone u Hin) as H. simpl in H.
    apply String.eqb_neq in H. auto.
  - intros Hnot.
    destruct (find _ users_col) as [u|] eqn:Hfind; [|reflexivity].
    destruct (find_some _ _ Hfind) as [Hin Heq]. apply String.eqb_eq in Heq.
    elim Hnot. apply in_map_iff. eauto.
Qed.

Lemma find_one_user_last (users_col : list User) (u : User) :
  find_one_user users_col (user_username u) = None ->
  find_one_user (users_col ++ [u]) (user_username u) = Some u.
Proof.
  unfold find_one_user.
  induction users_col as [|v l IH]; simpl.
  - now rewrite String.eqb_refl.
  - destruct (String.eqb (user_username v) (user_username u)); [discriminate|exact IH].
Qed.

(** X14. When [register] creates an account: a POST creates the account,
    with the stripped username and the hash of the password, and
    redirects to the login page exactly when the stripped username and
    the password are not empty, the confirmation equals the password and
    no account has the username; an absent field counts as empty; in
    every other case the accounts stay as they were and the page shows an
    error. *)
Theorem register_creates_account (strip : string -> string)
    (generate_password_hash : string -> string -> string)
    (salt : string) (req : Request RegisterForm) (users_col : list User) :
  method req = POST ->
  let username := strip (form_get (reg_username (form req))) in
  let password := form_get (reg_password (form req)) in
  let confirm := form_get (reg_confirm (form req)) in
  (username <> "" /\ password <> "" /\ password = confirm /\
   ~ In username (map user_username users_col) ->
   register strip generate_password_hash salt req users_col =
     (users_col ++ [mkUser username (generate_password_hash salt password)],
      page_redirect "/login")) /\
  (~ (username <> "" /\ password <> "" /\ password = confirm /\
      ~ In username (map user_username users_col)) ->
   fst (register strip generate_password_hash salt req users_col) = users_col /\
   exists message,
     snd (register strip generate_password_hash salt req users_col) =
       page_register (Some message)).
Proof.
  intros Hm username password confirm. unfold register. rewrite Hm.
  fold username password confirm.
  destruct (String.eqb_spec username "") as [Hu|Hu]; simpl.
  { split; [intros [H _]; now elim H|intros _; simpl; eauto]. }
  destruct (String.eqb_spec password "") as [Hp|Hp]; simpl.
  { split; [intros (_ & H & _); now elim H|intros _; simpl; eauto]. }
  destruct (String.eqb_spec password confirm) as [Hc|Hc]; simpl.
  - destruct (find_one_user users_col username) as [u|] eqn:Hfind.
    + split; [|intros _; simpl; eauto].
      intros (_ & _ & _ & Hnot). apply find_one_user_none in Hnot. congruence.
    + split; [reflexivity|].
      intros Hneg. elim Hneg. apply find_one_user_none in Hfind. auto.
  - split; [intros (_ & _ & H & _); now elim Hc|intros _; simpl; eauto].
Qed.

Lemma register_creates_account_witness :
  register no_strip plain_hash "salt" (sign_up "ada" "pw" "pw") [] =
    ([mkUser "ada" "pw"], page_redirect "/login") /\
  fst (register no_strip plain_hash "salt"
         (mkRequest None POST (mkRegisterForm (Some "ada") None None)) []) = [].
Proof.
  split.
  - apply (register_creates_account no_strip plain_hash "salt"
             (sign_up "ada" "pw" "pw") [] eq_refl).
    repeat split; try discriminate. intros [].
  - apply (register_creates_account no_strip plain_hash "salt"
             (mkRequest None POST (mkRegisterForm (Some "ada") None None)) [] eq_refl).
    intros (_ & H & _). now elim H.
Defined.

(** X15. Usernames stay unique: if the usernames of the accounts are
    pairwise distinct and none is empty, they are so after [register],
    whatever the request. *)
Theorem register_keeps_usernames_unique (strip : string -> string)
    (generate_password_hash : string -> string -> string)
    (salt : string) (req : Request RegisterForm) (users_col : list User) :
  usernames_unique users_col ->
  usernames_unique (fst (register strip generate_password_hash salt req users_col)).
Proof.
  intros [Hnd Hne]. unfold register.
  destruct (method req); [now split|].
  destruct (String.eqb_spec (strip (form_get (reg_username (form req)))) "")
    as [Hu|Hu]; simpl; [now split|].
  destruct (String.eqb _ ""); simpl; [now split|].
  destruct (negb _); [now split|].
  destruct (find_one_user users_col _) as [u|] eqn:Hfind; [now split|].
  apply find_one_user_none in Hfind. simpl. split.
  - rewrite map_app. simpl.
    apply NoDup_app; [exact Hnd|repeat constructor; intros []|].
    intros name Hin [<-|[]]. auto.
  - apply Forall_app. split; [exact Hne|]. repeat constructor. exact Hu.
Qed.

Lemma register_keeps_usernames_unique_witness :
  usernames_unique [mkUser "ada" "pw"] /\
  usernames_unique
    (fst (register no_strip plain_hash "salt" (sign_up "ada" "other" "other")
            [mkUser "ada" "pw"])) /\
  fst (register no_strip plain_hash "salt" (sign_up "ada" "other" "other")
         [mkUser "ada" "pw"]) = [mkUser "ada" "pw"].
Proof.
  assert (H : usernames_unique [mkUser "ada" "pw"]).
  { split; repeat constructor; [intros []|discriminate]. }
  split; [exact H|]. split; [|reflexivity].
  exact (register_keeps_usernames_unique no_strip plain_hash "salt"
           (sign_up "ada" "other" "other") [mkUser "ada" "pw"] H).
Defined.

(** X16. Register, then log in: if hashes made by
    [generate_password_hash] are accepted by [check_password_hash] for
    the password they were made from, then after a [register] that
    redirected to the login page, a login with the stripped username and
    the password puts that username in the session and redirects to the
    dashboard. *)
Theorem register_then_login (strip : string -> string)
    (generate_password_hash : string -> string -> string)
    (check_password_hash : string -> string -> bool)
    (salt : string) (req : Request RegisterForm) (req' : Request LoginForm)
    (users_col : list User) :
  (forall s password,
     check_password_hash (generate_password_hash s password) password = true) ->
  method req = POST ->
  snd (register strip generate_password_hash salt req users_col) =
    page_redirect "/login" ->
  method req' = POST ->
  form_get (login_username (form req')) = strip (form_get (reg_username (form req))) ->
  form_get (login_password (form req')) = form_get (reg_password (form req)) ->
  login check_password_hash req'
    (fst (register strip generate_password_hash salt req users_col)) =
    (Some (strip (form_get (reg_username (form req)))), page_redirect "/home").
Proof.
  intros Hcheck Hm Hreg Hm' Hname Hpw.
  unfold register in *. rewrite Hm in *.
  destruct (String.eqb _ "" || String.eqb _ ""); [discriminate|].
  destruct (negb _); [discriminate|].
  destruct (find_one_user users_col _) as [u|] eqn:Hfind; [discriminate|].
  simpl. unfold login. rewrite Hm', Hname, Hpw.
  pose proof (find_one_user_last users_col
                (mkUser (strip (form_get (reg_username (form req))))
                   (generate_password_hash salt (form_get (reg_password (form req)))))
                Hfind) as Hlast.
  simpl in Hlast. rewrite Hlast. simpl. now rewrite Hcheck.
Qed.

Lemma register_then_login_witness :
  login plain_check (sign_in "ada" "pw")
    (fst (register no_strip plain_hash "salt" (sign_up "ada" "pw" "pw") [])) =
    (Some "ada", page_redirect "/home").
Proof.
  apply (register_then_login no_strip plain_hash plain_check "salt"
           (sign_up "ada" "pw" "pw") (sign_in "ada" "pw") []); try reflexivity.
  intros s password. apply String.eqb_refl.
Defined.

(** X17. Who [login] lets in: [login] either leaves the session as it
    was and shows the login page, or redirects to the dashboard with, in
    the session, the username of an account that has the submitted
    username and whose hash [check_password_hash] accepts for the
    submitted password. *)
Theorem login_lets_in_accounts_only (check_password_hash : string -> string -> bool)
    (req : Request LoginForm) (users_col : list User) :
  (fst (login check_password_hash req users_col) = session_user req /\
   exists error, snd (login check_password_hash req users_col) = page_login error) \/
  (snd (login check_password_hash req users_col) = page_redirect "/home" /\
   exists user,
     In user users_col /\
     user_username user = form_get (login_username (form req)) /\
     check_password_hash (user_password user)
       (form_get (login_password (form req))) = true /\
     fst (login check_password_hash req users_col) = Some (user_username user)).
Proof.
  unfold login. destruct (method req); [left; simpl; eauto|].
  cbv zeta.
  destruct (find_one_user users_col (form_get (login_username (form req))))
    as [user|] eqn:Hfind; [|left; simpl; eauto].
  destruct (check_password_hash (user_password user)
              (form_get (login_password (form req)))) eqn:Hcheck;
    [|left; simpl; eauto].
  right. split; [reflexivity|]. exists user.
  unfold find_one_user in Hfind. destruct (find_some _ _ Hfind) as [Hin Heq].
  apply String.eqb_eq in Heq. auto.
Qed.

(** ** The dashboard *)

Lemma insert_by_start_perm (ev : Event) (l : list Event) :
  Permutation (ev :: l) (insert_by_start ev l).
Proof.
  induction l as [|x l IH]; simpl; [reflexivity|].
  destruct (ev_start ev <=? ev_start x); [reflexivity|].
  rewrite perm_swap. now constructor.
Qed.

Lemma sort_by_start_perm (l : list Event) : Permutation l (sort_by_start l).
Proof.
  induction l as [|ev l IH]; simpl; [reflexivity|].
  rewrite <- insert_by_start_perm. now constructor.
Qed.

Lemma insert_by_start_sorted (ev : Event) (l : list Event) :
  StronglySorted (fun a b => ev_start a <= ev_start b) l ->
  StronglySorted (fun a b => ev_start a <= ev_start b) (insert_by_start ev l).
Proof.
  induction 1 as [|x l Hl IH Hx]; simpl.
  - repeat constructor.
  - destruct (ev_start ev <=? ev_start x) eqn:Hle.
    + apply Z.leb_le in Hle. constructor.
      * now constructor.
      * constructor; [exact Hle|].
        eapply Forall_impl; [|exact Hx]. simpl. intros b Hb. lia.
    + apply Z.leb_gt in Hle. constructor; [exact IH|].
      apply (Permutation_Forall (insert_by_start_perm ev l)).
      constructor; [lia|exact Hx].
Qed.

Lemma sort_by_start_sorted (l : list Event) :
  StronglySorted (fun a b => ev_start a <= ev_start b) (sort_by_start l).
Proof.
  induction l as [|ev l IH]; simpl; [constructor|].
  now apply insert_by_start_sorted.
Qed.

(** The first [n] of a sorted list are sorted and come before the rest. *)
Lemma firstn_sorted {A : Type} (R : A -> A -> Prop) (l : list A) :
  StronglySorted R l ->
  forall n,
    StronglySorted R (firstn n l) /\
    (forall x y, In x (firstn n l) -> In y (skipn n l) -> R x y).
Proof.
  induction 1 as [|a l Hl IH Ha]; intros n.
  - rewrite firstn_nil. split; [constructor|intros x y []].
  - destruct n as [|n]; simpl.
    + split; [constructor|intros x y []].
    + destruct (IH n) as [Hs Hle]. rewrite Forall_forall in Ha. split.
      * constructor; [exact Hs|].
        apply Forall_forall. intros x Hx. apply Ha.
        rewrite <- (firstn_skipn n l). apply in_or_app. now left.
      * intros x y [<-|Hx] Hy.
        -- apply Ha. rewrite <- (firstn_skipn n l). apply in_or_app. now right.
        -- now apply Hle.
Qed.

(** X18. The dashboard: [home] shows the numbers of events, resources
    and allocations and a list of at most five events of the store, all
    starting after the clock's reading, in ascending order of start; an
    event of the store that starts after the reading and is not listed
    starts no earlier than each of the five listed. *)
Theorem home_upcoming_events (now : Clock) (req : Request unit) (db : Store) :
  exists upcoming,
    home now req db =
      page_home (session_user req)
        (Z.of_nat (List.length (events_col db)))
        (Z.of_nat (List.length (resources_col db)))
        (Z.of_nat (List.length (allocations_col db)))
        upcoming /\
    (List.length upcoming <= 5)%nat /\
    StronglySorted (fun a b => ev_start a <= ev_start b) upcoming /\
    (forall ev, In ev upcoming ->
                In ev (events_col db) /\ now 0%nat < ev_start ev) /\
    (forall ev, In ev (events_col db) -> now 0%nat < ev_start ev ->
                In ev upcoming \/
                (List.length upcoming = 5%nat /\
                 forall u, In u upcoming -> ev_start u <= ev_start ev)).
Proof.
  exists (upcoming_events db (now 0%nat)).
  split; [reflexivity|]. unfold upcoming_events.
  set (found := filter (fun ev => ev_start ev >? now 0%nat) (events_col db)).
  pose proof (sort_by_start_perm found) as Hperm.
  destruct (firstn_sorted _ _ (sort_by_start_sorted found) 5) as [Hsorted Hle].
  assert (Hfound : forall ev, In ev found <->
                              In ev (events_col db) /\ now 0%nat < ev_start ev).
  { intros ev. unfold found. rewrite filter_In, Z.gtb_ltb, Z.ltb_lt. tauto. }
  split; [|split; [exact Hsorted|split]].
  - rewrite length_firstn. apply Nat.le_min_l.
  - intros ev Hin. apply Hfound.
    apply (Permutation_in ev (Permutation_sym Hperm)).
    rewrite <- (firstn_skipn 5 (sort_by_start found)). apply in_or_app. now left.
  - intros ev Hin Hlt.
    assert (Hs : In ev (sort_by_start found))
      by (apply (Permutation_in ev Hperm), Hfound; auto).
    rewrite <- (firstn_skipn 5 (sort_by_start found)) in Hs.
    apply in_app_or in Hs. destruct Hs as [Hs|Hs]; [now left|].
    right. split.
    + rewrite length_firstn.
      assert (List.length (skipn 5 (sort_by_start found)) <> 0)%nat
        by (destruct (skipn 5 (sort_by_start found)); [destruct Hs|discriminate]).
      rewrite length_skipn in *. lia.
    + intros u Hu. now apply Hle.
Qed.
